(** * RuntimeMeshSection: mesh section storage, bounds tracking, snapshots

    Shallow embedding of [Source/RuntimeMeshComponent/Public/RuntimeMeshSection.h]:
    the interface class [FRuntimeMeshSectionInterface], the helper namespace
    [RuntimeMeshSectionInternal] and the templated class [FRuntimeMeshSection].

    Conventions of the embedding.
    - [TArray<T>] is a [list T]; [operator[]] is range checked by the engine
      and is a partial lookup here, so every routine that indexes an array
      lives in the [option] monad ([None] is the failed range check).
    - [int32] values are [Z]; array sizes are [nat] ([Num] gives them as [Z]).
    - The routines that take a caller array by non-const reference return the
      caller's array next to the section: [MoveTemp] leaves it empty.
    - A coordinate of [FVector] is a [Float]: not-a-number, or a number. The
      code of this file only compares coordinates and selects among them
      (through [FBox] and [FMath::Min], [FMath::Max]); it never does
      arithmetic on them. A number is therefore given by its rank in the
      order of the floating point numbers, an integer: the infinities are
      numbers like the others, and the two zeros, which compare equal, share
      a rank. Every comparison with a NaN is false. *)

From Stdlib Require Import ZArith Bool Lia.
From stdpp Require Import base option list sets.

Set Default Proof Using "Type".

(** ** Engine value types: FVector and FBox *)

(** A [float] as far as comparisons can tell. *)
Inductive Float := NaN | FNum (v : Z).

#[global] Instance Float_eq_dec : EqDecision Float.
Proof. solve_decision. Defined.

(** [a <= b], [a >= b] and [a == b] on floats: false as soon as one side is
    a NaN. *)
Definition Float_leb (a b : Float) : bool :=
  match a, b with
  | FNum x, FNum y => (x <=? y)%Z
  | _, _ => false
  end.

Definition Float_geb (a b : Float) : bool :=
  match a, b with
  | FNum x, FNum y => (x >=? y)%Z
  | _, _ => false
  end.

Definition Float_eqb (a b : Float) : bool :=
  match a, b with
  | FNum x, FNum y => (x =? y)%Z
  | _, _ => false
  end.

(** [FMath::Min(A, B)] is [(A <= B) ? A : B] and [FMath::Max(A, B)] is
    [(A >= B) ? A : B]. *)
Definition FMath_Min (A B : Float) : Float := if Float_leb A B then A else B.

Definition FMath_Max (A B : Float) : Float := if Float_geb A B then A else B.

Record FVector := MkVector { VX : Float; VY : Float; VZ : Float }.

(** The vector with the three given numbers as coordinates. *)
Definition vec (x y z : Z) : FVector := MkVector (FNum x) (FNum y) (FNum z).

Definition ZeroVector : FVector := vec 0 0 0.

#[global] Instance FVector_eq_dec : EqDecision FVector.
Proof. solve_decision. Defined.

(** [FVector::operator==]: coordinate-wise comparison. *)
Definition FVector_eqb (a b : FVector) : bool :=
  Float_eqb (VX a) (VX b) && Float_eqb (VY a) (VY b) && Float_eqb (VZ a) (VZ b).

(** The engine's axis-aligned box: two corners and a validity flag. *)
Record FBox := MkBox { Min : FVector; Max : FVector; IsValid : bool }.

(** [FBox(0)] and [FBox::Init]: both corners at the origin, flag cleared. *)
Definition FBox_Init : FBox := MkBox ZeroVector ZeroVector false.

(** [FBox::operator+=(const FVector&)]: the first point of an invalid box
    becomes both corners; later points go through [FMath::Min] and
    [FMath::Max] with the corners, coordinate by coordinate. *)
Definition FBox_add (b : FBox) (Other : FVector) : FBox :=
  if IsValid b then
    MkBox (MkVector (FMath_Min (VX (Min b)) (VX Other))
                    (FMath_Min (VY (Min b)) (VY Other))
                    (FMath_Min (VZ (Min b)) (VZ Other)))
          (MkVector (FMath_Max (VX (Max b)) (VX Other))
                    (FMath_Max (VY (Max b)) (VY Other))
                    (FMath_Max (VZ (Max b)) (VZ Other)))
          true
  else MkBox Other Other true.

(** [FBox::operator==]: compares the two corners; the validity flag takes no
    part in the comparison. *)
Definition FBox_eqb (a b : FBox) : bool :=
  FVector_eqb (Min a) (Min b) && FVector_eqb (Max a) (Max b).

(** ** TArray primitives *)

Definition Num {A} (a : list A) : Z := Z.of_nat (length a).

(** [a[i]] as an rvalue. *)
Definition TArray_get {A} (a : list A) (i : nat) : option A := a !! i.

(** [a[i] = v]. *)
Definition TArray_set {A} (a : list A) (i : nat) (v : A) : option (list A) :=
  if decide (i < length a) then Some (<[i:=v]> a) else None.

(** [a.SetNumUninitialized(n)]: the first [n] old elements are kept, slots
    beyond the old size hold whatever the allocator left there ([junk]). *)
Definition SetNumUninitialized {A} (junk : A) (n : nat) (a : list A) : list A :=
  take n a ++ replicate (n - length a) junk.

(** [Dst = MoveTemp(Src)]: the destination takes the elements, the source is
    left empty. Returns (destination, source). *)
Definition MoveAssign {A} (Src : list A) : list A * list A := (Src, []).

(** [Dst = Src]: copy assignment. Returns (destination, source). *)
Definition CopyAssign {A} (Src : list A) : list A * list A := (Src, Src).

(** [for (int32 Idx = start; Idx < start + count; Idx++) body(Idx)]. *)
Fixpoint for_from {St} (Idx count : nat) (body : nat → St → option St) (s : St)
  : option St :=
  match count with
  | O => Some s
  | S c => s' ← body Idx s; for_from (S Idx) c body s'
  end.

Definition for_upto {St} (n : nat) (body : nat → St → option St) (s : St)
  : option St :=
  for_from 0 n body s.

(** ** FRuntimeMeshSectionInterface: the layout independent part of a section *)

(** [EUpdateFrequency] is a [uint8] backed enum class declared in
    RuntimeMeshCore.h; a value is its underlying byte. The numbering of the
    enumerators plays no part in this file, only the two casts of
    [Serialize] do. *)
Definition EUpdateFrequency := Z.

(** [(int32)UpdateFrequency]: zero extension of the byte. *)
Definition int32_of_EUpdateFrequency (f : EUpdateFrequency) : Z := f.

(** [(EUpdateFrequency)UpdateFreq]: truncation to the low byte. *)
Definition EUpdateFrequency_of_int32 (n : Z) : EUpdateFrequency := (n mod 256)%Z.

Definition valid_EUpdateFrequency (f : EUpdateFrequency) : Prop := (0 ≤ f < 256)%Z.

Arguments int32_of_EUpdateFrequency : simpl never.
Arguments EUpdateFrequency_of_int32 : simpl never.

Record FRuntimeMeshSectionInterface := MkInterface {
  bNeedsPositionOnlyBuffer : bool;
  PositionVertexBuffer : list FVector;
  IndexBuffer : list Z;
  TessellationIndexBuffer : list Z;
  LocalBoundingBox : FBox;
  CollisionEnabled : bool;
  bIsVisible : bool;
  bCastsShadow : bool;
  bShouldUseAdjacencyIndexBuffer : bool;
  UpdateFrequency : EUpdateFrequency;
  bIsInternalSectionType : bool
}.

(** The constructor initialises every member except
    [bShouldUseAdjacencyIndexBuffer] and [UpdateFrequency]; those two start
    with indeterminate contents, given here by the last two arguments. *)
Definition NewInterface (bInNeedsPositionOnlyBuffer : bool)
    (indetAdjacency : bool) (indetFrequency : EUpdateFrequency)
  : FRuntimeMeshSectionInterface :=
  {| bNeedsPositionOnlyBuffer := bInNeedsPositionOnlyBuffer;
     PositionVertexBuffer := [];
     IndexBuffer := [];
     TessellationIndexBuffer := [];
     LocalBoundingBox := FBox_Init;
     CollisionEnabled := false;
     bIsVisible := true;
     bCastsShadow := true;
     bShouldUseAdjacencyIndexBuffer := indetAdjacency;
     UpdateFrequency := indetFrequency;
     bIsInternalSectionType := false |}.

Definition set_PositionVertexBuffer (v : list FVector) (s : FRuntimeMeshSectionInterface) :=
  MkInterface (bNeedsPositionOnlyBuffer s) v (IndexBuffer s)
    (TessellationIndexBuffer s) (LocalBoundingBox s) (CollisionEnabled s)
    (bIsVisible s) (bCastsShadow s) (bShouldUseAdjacencyIndexBuffer s)
    (UpdateFrequency s) (bIsInternalSectionType s).

Definition set_IndexBuffer (v : list Z) (s : FRuntimeMeshSectionInterface) :=
  MkInterface (bNeedsPositionOnlyBuffer s) (PositionVertexBuffer s) v
    (TessellationIndexBuffer s) (LocalBoundingBox s) (CollisionEnabled s)
    (bIsVisible s) (bCastsShadow s) (bShouldUseAdjacencyIndexBuffer s)
    (UpdateFrequency s) (bIsInternalSectionType s).

Definition set_TessellationIndexBuffer (v : list Z) (s : FRuntimeMeshSectionInterface) :=
  MkInterface (bNeedsPositionOnlyBuffer s) (PositionVertexBuffer s) (IndexBuffer s)
    v (LocalBoundingBox s) (CollisionEnabled s)
    (bIsVisible s) (bCastsShadow s) (bShouldUseAdjacencyIndexBuffer s)
    (UpdateFrequency s) (bIsInternalSectionType s).

Definition set_LocalBoundingBox (v : FBox) (s : FRuntimeMeshSectionInterface) :=
  MkInterface (bNeedsPositionOnlyBuffer s) (PositionVertexBuffer s) (IndexBuffer s)
    (TessellationIndexBuffer s) v (CollisionEnabled s)
    (bIsVisible s) (bCastsShadow s) (bShouldUseAdjacencyIndexBuffer s)
    (UpdateFrequency s) (bIsInternalSectionType s).

Definition set_CollisionEnabled (v : bool) (s : FRuntimeMeshSectionInterface) :=
  MkInterface (bNeedsPositionOnlyBuffer s) (PositionVertexBuffer s) (IndexBuffer s)
    (TessellationIndexBuffer s) (LocalBoundingBox s) v
    (bIsVisible s) (bCastsShadow s) (bShouldUseAdjacencyIndexBuffer s)
    (UpdateFrequency s) (bIsInternalSectionType s).

Definition set_bIsVisible (v : bool) (s : FRuntimeMeshSectionInterface) :=
  MkInterface (bNeedsPositionOnlyBuffer s) (PositionVertexBuffer s) (IndexBuffer s)
    (TessellationIndexBuffer s) (LocalBoundingBox s) (CollisionEnabled s)
    v (bCastsShadow s) (bShouldUseAdjacencyIndexBuffer s)
    (UpdateFrequency s) (bIsInternalSectionType s).

Definition set_bShouldUseAdjacencyIndexBuffer (v : bool) (s : FRuntimeMeshSectionInterface) :=
  MkInterface (bNeedsPositionOnlyBuffer s) (PositionVertexBuffer s) (IndexBuffer s)
    (TessellationIndexBuffer s) (LocalBoundingBox s) (CollisionEnabled s)
    (bIsVisible s) (bCastsShadow s) v
    (UpdateFrequency s) (bIsInternalSectionType s).

Definition set_UpdateFrequency (v : EUpdateFrequency) (s : FRuntimeMeshSectionInterface) :=
  MkInterface (bNeedsPositionOnlyBuffer s) (PositionVertexBuffer s) (IndexBuffer s)
    (TessellationIndexBuffer s) (LocalBoundingBox s) (CollisionEnabled s)
    (bIsVisible s) (bCastsShadow s) (bShouldUseAdjacencyIndexBuffer s)
    v (bIsInternalSectionType s).

Definition IsDualBufferSection (s : FRuntimeMeshSectionInterface) : bool :=
  bNeedsPositionOnlyBuffer s.

(** The outcome of a buffer update: the returned flag, the object the routine
    ran on, and the caller's array as the routine leaves it. *)
Record Updated (St A : Type) := MkUpdated {
  boundsChanged : bool;
  updated : St;
  callerArray : list A
}.
Arguments MkUpdated {St A} _ _ _.
Arguments boundsChanged {St A} _.
Arguments updated {St A} _.
Arguments callerArray {St A} _.

(** [FRuntimeMeshSectionInterface::UpdateVertexPositionBuffer].
    [junk] is the content of array slots grown by [SetNumUninitialized]. *)
Definition UpdateVertexPositionBuffer (junk : FVector)
    (this : FRuntimeMeshSectionInterface)
    (Positions : list FVector) (BoundingBox : option FBox) (bShouldMoveArray : bool)
  : option (Updated FRuntimeMeshSectionInterface FVector) :=
  let NewBoundingBox := FBox_Init in
  '(this, Positions, NewBoundingBox) ←
    (if bShouldMoveArray then
       let '(dst, Positions) := MoveAssign Positions in
       let this := set_PositionVertexBuffer dst this in
       match BoundingBox with
       | None =>
           NewBoundingBox ←
             for_upto (length (PositionVertexBuffer this))
               (λ VertexIdx NewBoundingBox,
                  p ← TArray_get (PositionVertexBuffer this) VertexIdx;
                  Some (FBox_add NewBoundingBox p))
               NewBoundingBox;
           Some (this, Positions, NewBoundingBox)
       | Some b => Some (this, Positions, b)
       end
     else
       match BoundingBox with
       | None =>
           let NumVertices := length Positions in
           let this :=
             set_PositionVertexBuffer
               (SetNumUninitialized junk NumVertices (PositionVertexBuffer this)) this in
           '(NewBoundingBox, buf) ←
             for_upto NumVertices
               (λ VertexIdx '(NewBoundingBox, buf),
                  p ← TArray_get Positions VertexIdx;
                  q ← TArray_get Positions VertexIdx;
                  buf ← TArray_set buf VertexIdx q;
                  Some (FBox_add NewBoundingBox p, buf))
               (NewBoundingBox, PositionVertexBuffer this);
           Some (set_PositionVertexBuffer buf this, Positions, NewBoundingBox)
       | Some b =>
           let '(dst, Positions) := CopyAssign Positions in
           Some (set_PositionVertexBuffer dst this, Positions, b)
       end);
  if negb (FBox_eqb (LocalBoundingBox this) NewBoundingBox) then
    Some (MkUpdated true (set_LocalBoundingBox NewBoundingBox this) Positions)
  else
    Some (MkUpdated false this Positions).

(** [FRuntimeMeshSectionInterface::UpdateIndexBuffer]: returns the section and
    the caller's array. *)
Definition UpdateIndexBuffer (this : FRuntimeMeshSectionInterface)
    (Triangles : list Z) (bShouldMoveArray : bool)
  : FRuntimeMeshSectionInterface * list Z :=
  if bShouldMoveArray then
    let '(dst, Triangles) := MoveAssign Triangles in
    (set_IndexBuffer dst this, Triangles)
  else
    let '(dst, Triangles) := CopyAssign Triangles in
    (set_IndexBuffer dst this, Triangles).

(** [FRuntimeMeshSectionInterface::UpdateTessellationIndexBuffer]. *)
Definition UpdateTessellationIndexBuffer (this : FRuntimeMeshSectionInterface)
    (Triangles : list Z) (bShouldMoveArray : bool)
  : FRuntimeMeshSectionInterface * list Z :=
  if bShouldMoveArray then
    let '(dst, Triangles) := MoveAssign Triangles in
    (set_TessellationIndexBuffer dst this, Triangles)
  else
    let '(dst, Triangles) := CopyAssign Triangles in
    (set_TessellationIndexBuffer dst this, Triangles).

(** ** Vertex layout traits *)

(** [FRuntimeMeshVertexTraits<Type>::HasPosition], resolved at compile time in
    the source: a layout either embeds a position (and then has the member
    [Position]) or keeps none. *)
Inductive FRuntimeMeshVertexTraits (V : Type) : Type :=
| HasPosition (Position : V → FVector)
| NoPosition.
Arguments HasPosition {V} _.
Arguments NoPosition {V}.

(** ** namespace RuntimeMeshSectionInternal *)

Module RuntimeMeshSectionInternal.

(** [GetAllVertexPositions], overload for layouts with a position. Returns
    the count and the caller's output array. *)
Definition GetAllVertexPositions_HasPosition {V} (Position : V → FVector)
    (VertexBuffer : list V) (PositionVertexBuffer : list FVector)
    (Positions : list FVector) : option (Z * list FVector) :=
  let VertexCount := length VertexBuffer in
  Positions ←
    for_upto VertexCount
      (λ VertIdx Positions,
         v ← TArray_get VertexBuffer VertIdx;
         Some (Positions ++ [Position v]))
      Positions;
  Some (Z.of_nat VertexCount, Positions).

(** [GetAllVertexPositions], overload for layouts without a position. *)
Definition GetAllVertexPositions_NoPosition {V}
    (VertexBuffer : list V) (PositionVertexBuffer : list FVector)
    (Positions : list FVector) : option (Z * list FVector) :=
  let Positions := Positions ++ PositionVertexBuffer in
  Some (Num PositionVertexBuffer, Positions).

Definition GetAllVertexPositions {V} (traits : FRuntimeMeshVertexTraits V) :=
  match traits with
  | HasPosition Position => GetAllVertexPositions_HasPosition Position
  | NoPosition => GetAllVertexPositions_NoPosition
  end.

(** [UpdateVertexBufferInternal], overload for layouts with a position. It
    runs on the pair of references (VertexBuffer, LocalBoundingBox). *)
Definition UpdateVertexBufferInternal_HasPosition {V} (Position : V → FVector)
    (junk : V) (VertexBuffer : list V) (LocalBoundingBox : FBox)
    (Vertices : list V) (BoundingBox : option FBox) (bShouldMoveArray : bool)
  : option (Updated (list V * FBox) V) :=
  let NewBoundingBox := FBox_Init in
  '(VertexBuffer, Vertices, NewBoundingBox) ←
    (if bShouldMoveArray then
       let '(VertexBuffer, Vertices) := MoveAssign Vertices in
       match BoundingBox with
       | None =>
           NewBoundingBox ←
             for_upto (length VertexBuffer)
               (λ VertexIdx NewBoundingBox,
                  v ← TArray_get VertexBuffer VertexIdx;
                  Some (FBox_add NewBoundingBox (Position v)))
               NewBoundingBox;
           Some (VertexBuffer, Vertices, NewBoundingBox)
       | Some b => Some (VertexBuffer, Vertices, b)
       end
     else
       match BoundingBox with
       | None =>
           let NumVertices := length Vertices in
           let VertexBuffer := SetNumUninitialized junk NumVertices VertexBuffer in
           '(NewBoundingBox, VertexBuffer) ←
             for_upto NumVertices
               (λ VertexIdx '(NewBoundingBox, VertexBuffer),
                  v ← TArray_get Vertices VertexIdx;
                  w ← TArray_get Vertices VertexIdx;
                  VertexBuffer ← TArray_set VertexBuffer VertexIdx w;
                  Some (FBox_add NewBoundingBox (Position v), VertexBuffer))
               (NewBoundingBox, VertexBuffer);
           Some (VertexBuffer, Vertices, NewBoundingBox)
       | Some b =>
           let '(VertexBuffer, Vertices) := CopyAssign Vertices in
           Some (VertexBuffer, Vertices, b)
       end);
  if negb (FBox_eqb LocalBoundingBox NewBoundingBox) then
    Some (MkUpdated true (VertexBuffer, NewBoundingBox) Vertices)
  else
    Some (MkUpdated false (VertexBuffer, LocalBoundingBox) Vertices).

(** [UpdateVertexBufferInternal], overload for layouts without a position. *)
Definition UpdateVertexBufferInternal_NoPosition {V}
    (VertexBuffer : list V) (LocalBoundingBox : FBox)
    (Vertices : list V) (BoundingBox : option FBox) (bShouldMoveArray : bool)
  : option (Updated (list V * FBox) V) :=
  let '(VertexBuffer, Vertices) :=
    if bShouldMoveArray then MoveAssign Vertices else CopyAssign Vertices in
  Some (MkUpdated false (VertexBuffer, LocalBoundingBox) Vertices).

Definition UpdateVertexBufferInternal {V} (traits : FRuntimeMeshVertexTraits V)
    (junk : V) :=
  match traits with
  | HasPosition Position => UpdateVertexBufferInternal_HasPosition Position junk
  | NoPosition => UpdateVertexBufferInternal_NoPosition
  end.

(** [RecalculateBoundingBox], overload for layouts with a position. *)
Definition RecalculateBoundingBox_HasPosition {V} (Position : V → FVector)
    (VertexBuffer : list V) (BoundingBox : FBox) : option FBox :=
  for_upto (length VertexBuffer)
    (λ Index BoundingBox,
       v ← TArray_get VertexBuffer Index;
       Some (FBox_add BoundingBox (Position v)))
    BoundingBox.

(** [RecalculateBoundingBox], overload for layouts without a position. *)
Definition RecalculateBoundingBox_NoPosition {V}
    (VertexBuffer : list V) (BoundingBox : FBox) : option FBox :=
  Some BoundingBox.

Definition RecalculateBoundingBox {V} (traits : FRuntimeMeshVertexTraits V) :=
  match traits with
  | HasPosition Position => RecalculateBoundingBox_HasPosition Position
  | NoPosition => RecalculateBoundingBox_NoPosition
  end.

End RuntimeMeshSectionInternal.

(** ** Collaborators declared in headers outside this file *)

(** The rendering side, reached through [FSceneInterface], [UMaterialInterface]
    and the section proxy of RuntimeMeshSectionProxy.h. The proxy's
    constructor decides whether the proxy wants adjacency indices;
    [ProxyWantsAdjacency] stands for that decision as a function of the
    template flag and the constructor's arguments. *)
Class RenderBackend := {
  FSceneInterface : Type;
  UMaterialInterface : Type;
  FMaterialRelevance : Type;
  ERHIFeatureLevel : Type;
  GetFeatureLevel : FSceneInterface → ERHIFeatureLevel;
  GetRelevance : UMaterialInterface → ERHIFeatureLevel → FMaterialRelevance;
  GetDefaultMaterial : UMaterialInterface;
  ProxyWantsAdjacency :
    bool → FSceneInterface → EUpdateFrequency → bool → bool →
    option UMaterialInterface → FMaterialRelevance → bool
}.

(** [FRuntimeMeshSectionProxy<VertexType, NeedsPositionOnlyBuffer>]: the
    template flag and the constructor's arguments. *)
Record FRuntimeMeshSectionProxy `{RenderBackend} := MkProxy {
  Proxy_NeedsPositionOnlyBuffer : bool;
  Proxy_Scene : FSceneInterface;
  Proxy_UpdateFrequency : EUpdateFrequency;
  Proxy_bIsVisible : bool;
  Proxy_bCastsShadow : bool;
  Proxy_Material : option UMaterialInterface;
  Proxy_MaterialRelevance : FMaterialRelevance
}.

Definition ShouldUseAdjacencyIndexBuffer `{RenderBackend}
    (p : FRuntimeMeshSectionProxy) : bool :=
  ProxyWantsAdjacency (Proxy_NeedsPositionOnlyBuffer p) (Proxy_Scene p)
    (Proxy_UpdateFrequency p) (Proxy_bIsVisible p) (Proxy_bCastsShadow p)
    (Proxy_Material p) (Proxy_MaterialRelevance p).

(** What a vertex type brings with it: its traits (RuntimeMeshCore.h) and the
    two overloads of [URuntimeMeshLibrary::GenerateTessellationIndexBuffer]
    (RuntimeMeshLibrary.h), each giving the contents of its output array. *)
Class VertexType (V : Type) := {
  Traits : FRuntimeMeshVertexTraits V;
  GenerateTessellationIndexBuffer : list V → list Z → list Z;
  GenerateTessellationIndexBuffer_Dual : list FVector → list V → list Z → list Z
}.

(** [FRuntimeMeshVersion::DualVertexBuffer] (RuntimeMeshVersion.h). *)
Class FRuntimeMeshVersion := { DualVertexBuffer : Z }.

(** ** FArchive *)

(** One value pushed through [operator<<]. The byte framing of each value is
    the engine's; the stream is the sequence of values. *)
Inductive FArchiveItem :=
| ArVectors (l : list FVector)
| ArInts (l : list Z)
| ArBox (b : FBox)
| ArBool (b : bool)
| ArInt32 (n : Z).

Record FArchive := MkArchive {
  IsLoading : bool;
  CustomVer : Z;
  Stream : list FArchiveItem
}.

Class Archivable (A : Type) := {
  to_item : A → FArchiveItem;
  of_item : FArchiveItem → option A
}.

#[global] Instance Archivable_vectors : Archivable (list FVector) :=
  {| to_item := ArVectors;
     of_item := λ it, match it with ArVectors l => Some l | _ => None end |}.

#[global] Instance Archivable_ints : Archivable (list Z) :=
  {| to_item := ArInts;
     of_item := λ it, match it with ArInts l => Some l | _ => None end |}.

#[global] Instance Archivable_box : Archivable FBox :=
  {| to_item := ArBox;
     of_item := λ it, match it with ArBox b => Some b | _ => None end |}.

#[global] Instance Archivable_bool : Archivable bool :=
  {| to_item := ArBool;
     of_item := λ it, match it with ArBool b => Some b | _ => None end |}.

#[global] Instance Archivable_int32 : Archivable Z :=
  {| to_item := ArInt32;
     of_item := λ it, match it with ArInt32 n => Some n | _ => None end |}.

(** [Ar << x]: a saving archive appends the value and leaves [x] alone; a
    loading archive takes the next value off the stream into [x]. *)
Definition Ar_shift {A} `{Archivable A} (Ar : FArchive) (x : A)
  : option (FArchive * A) :=
  if IsLoading Ar then
    match Stream Ar with
    | it :: rest => y ← of_item it; Some (MkArchive true (CustomVer Ar) rest, y)
    | [] => None
    end
  else
    Some (MkArchive false (CustomVer Ar) (Stream Ar ++ [to_item x]), x).

(** [FRuntimeMeshSectionInterface::Serialize]. *)
Definition Serialize `{FRuntimeMeshVersion}
    (this : FRuntimeMeshSectionInterface) (Ar : FArchive)
  : option (FArchive * FRuntimeMeshSectionInterface) :=
  '(Ar, this) ←
    (if (DualVertexBuffer <=? CustomVer Ar)%Z then
       '(Ar, v) ← Ar_shift Ar (PositionVertexBuffer this);
       Some (Ar, set_PositionVertexBuffer v this)
     else Some (Ar, this));
  '(Ar, v) ← Ar_shift Ar (IndexBuffer this);
  let this := set_IndexBuffer v this in
  '(Ar, v) ← Ar_shift Ar (LocalBoundingBox this);
  let this := set_LocalBoundingBox v this in
  '(Ar, v) ← Ar_shift Ar (CollisionEnabled this);
  let this := set_CollisionEnabled v this in
  '(Ar, v) ← Ar_shift Ar (bIsVisible this);
  let this := set_bIsVisible v this in
  let UpdateFreq := int32_of_EUpdateFrequency (UpdateFrequency this) in
  '(Ar, UpdateFreq) ← Ar_shift Ar UpdateFreq;
  Some (Ar, set_UpdateFrequency (EUpdateFrequency_of_int32 UpdateFreq) this).

(** [operator<<(FArchive&, FRuntimeMeshSectionInterface&)]: runs [Serialize]
    and hands the archive back, so that sections chain on one archive. *)
Definition Ar_shift_section `{FRuntimeMeshVersion}
    (Ar : FArchive) (Section : FRuntimeMeshSectionInterface)
  : option (FArchive * FRuntimeMeshSectionInterface) :=
  Serialize Section Ar.

(** The values a saving [Serialize] pushes for a section, in stream order,
    at archive version [ver]. *)
Definition section_items `{FRuntimeMeshVersion}
    (s : FRuntimeMeshSectionInterface) (ver : Z) : list FArchiveItem :=
  (if (DualVertexBuffer <=? ver)%Z then [ArVectors (PositionVertexBuffer s)] else [])
  ++ [ArInts (IndexBuffer s); ArBox (LocalBoundingBox s);
      ArBool (CollisionEnabled s); ArBool (bIsVisible s);
      ArInt32 (int32_of_EUpdateFrequency (UpdateFrequency s))].

(** ** FRuntimeMeshSection<VertexType> *)

Record FRuntimeMeshSection (V : Type) := MkSection {
  base : FRuntimeMeshSectionInterface;
  VertexBuffer : list V
}.
Arguments MkSection {V} _ _.
Arguments base {V} _.
Arguments VertexBuffer {V} _.

Definition NewSection {V} (bInNeedsPositionOnlyBuffer : bool)
    (indetAdjacency : bool) (indetFrequency : EUpdateFrequency)
  : FRuntimeMeshSection V :=
  MkSection (NewInterface bInNeedsPositionOnlyBuffer indetAdjacency indetFrequency) [].

Definition set_base {V} (b : FRuntimeMeshSectionInterface) (s : FRuntimeMeshSection V) :=
  MkSection b (VertexBuffer s).

Definition set_VertexBuffer {V} (v : list V) (s : FRuntimeMeshSection V) :=
  MkSection (base s) v.

(** [FRuntimeMeshSection::UpdateVertexBuffer]: hands the references to its
    [VertexBuffer] and [LocalBoundingBox] to the internal routine. *)
Definition UpdateVertexBuffer {V} `{VertexType V} (junk : V)
    (this : FRuntimeMeshSection V)
    (Vertices : list V) (BoundingBox : option FBox) (bShouldMoveArray : bool)
  : option (Updated (FRuntimeMeshSection V) V) :=
  r ← RuntimeMeshSectionInternal.UpdateVertexBufferInternal Traits junk
        (VertexBuffer this) (LocalBoundingBox (base this))
        Vertices BoundingBox bShouldMoveArray;
  let '(vb, box) := updated r in
  Some (MkUpdated (boundsChanged r)
          (MkSection (set_LocalBoundingBox box (base this)) vb)
          (callerArray r)).

(** [FRuntimeMeshSectionCreateData<VertexType>]. *)
Record FRuntimeMeshSectionCreateData `{RenderBackend} (V : Type) := MkCreateData {
  Create_NewProxy : FRuntimeMeshSectionProxy;
  Create_PositionVertexBuffer : list FVector;
  Create_VertexBuffer : list V;
  Create_IndexBuffer : list Z;
  Create_bIsAdjacencyIndexBuffer : bool
}.
Arguments MkCreateData {_ V} _ _ _ _ _.
Arguments Create_NewProxy {_ V} _.
Arguments Create_PositionVertexBuffer {_ V} _.
Arguments Create_VertexBuffer {_ V} _.
Arguments Create_IndexBuffer {_ V} _.
Arguments Create_bIsAdjacencyIndexBuffer {_ V} _.

(** [FRuntimeMeshSection::GetSectionCreationData]. The method is [const] but
    writes [bShouldUseAdjacencyIndexBuffer] through a [const_cast]; it returns
    the payload and the section as it leaves it. The payload's position array
    is default constructed (empty) unless the section is dual buffer. *)
Definition GetSectionCreationData {V} `{RenderBackend}
    (this : FRuntimeMeshSection V)
    (InScene : FSceneInterface) (InMaterial : option UMaterialInterface)
  : FRuntimeMeshSectionCreateData V * FRuntimeMeshSection V :=
  let MaterialRelevance :=
    match InMaterial with
    | Some m => GetRelevance m (GetFeatureLevel InScene)
    | None => GetRelevance GetDefaultMaterial (GetFeatureLevel InScene)
    end in
  let '(NewProxy, UpdateData_PositionVertexBuffer) :=
    if IsDualBufferSection (base this) then
      (MkProxy _ true InScene (UpdateFrequency (base this)) (bIsVisible (base this))
         (bCastsShadow (base this)) InMaterial MaterialRelevance,
       PositionVertexBuffer (base this))
    else
      (MkProxy _ false InScene (UpdateFrequency (base this)) (bIsVisible (base this))
         (bCastsShadow (base this)) InMaterial MaterialRelevance,
       []) in
  let this :=
    set_base (set_bShouldUseAdjacencyIndexBuffer
                (ShouldUseAdjacencyIndexBuffer NewProxy) (base this)) this in
  let UpdateData_VertexBuffer := VertexBuffer this in
  if bShouldUseAdjacencyIndexBuffer (base this)
     && bool_decide (0 < Num (TessellationIndexBuffer (base this)))%Z then
    (MkCreateData NewProxy UpdateData_PositionVertexBuffer UpdateData_VertexBuffer
       (TessellationIndexBuffer (base this)) true, this)
  else
    (MkCreateData NewProxy UpdateData_PositionVertexBuffer UpdateData_VertexBuffer
       (IndexBuffer (base this)) false, this).

(** [FRuntimeMeshSectionUpdateData<VertexType>]. *)
Record FRuntimeMeshSectionUpdateData (V : Type) := MkUpdateData {
  bIncludeVertexBuffer : bool;
  bIncludePositionBuffer : bool;
  bIncludeIndices : bool;
  Update_PositionVertexBuffer : list FVector;
  Update_VertexBuffer : list V;
  Update_IndexBuffer : list Z;
  Update_bIsAdjacencyIndexBuffer : bool
}.
Arguments MkUpdateData {V} _ _ _ _ _ _ _.
Arguments bIncludeVertexBuffer {V} _.
Arguments bIncludePositionBuffer {V} _.
Arguments bIncludeIndices {V} _.
Arguments Update_PositionVertexBuffer {V} _.
Arguments Update_VertexBuffer {V} _.
Arguments Update_IndexBuffer {V} _.
Arguments Update_bIsAdjacencyIndexBuffer {V} _.

(** [FRuntimeMeshSection::GetSectionUpdateData]. Arrays of the new payload
    start empty; [indetAdjacency] is what its adjacency flag holds when the
    index branch does not assign it. *)
Definition GetSectionUpdateData {V} (indetAdjacency : bool)
    (this : FRuntimeMeshSection V)
    (bIncludePositionVertices bIncludeVertices bIncludeIndices : bool)
  : FRuntimeMeshSectionUpdateData V :=
  let UpdateData_PositionVertexBuffer :=
    if bIncludePositionVertices then PositionVertexBuffer (base this) else [] in
  let UpdateData_VertexBuffer :=
    if bIncludeVertices then VertexBuffer this else [] in
  let '(UpdateData_IndexBuffer, UpdateData_bIsAdjacencyIndexBuffer) :=
    if bIncludeIndices then
      if bShouldUseAdjacencyIndexBuffer (base this)
         && bool_decide (0 < Num (TessellationIndexBuffer (base this)))%Z
      then (TessellationIndexBuffer (base this), true)
      else (IndexBuffer (base this), false)
    else ([], indetAdjacency) in
  MkUpdateData bIncludeVertices bIncludePositionVertices bIncludeIndices
    UpdateData_PositionVertexBuffer UpdateData_VertexBuffer
    UpdateData_IndexBuffer UpdateData_bIsAdjacencyIndexBuffer.

(** [FRuntimeMeshSection::GetSectionPositionUpdateData]: the payload is the
    copied position array. *)
Definition GetSectionPositionUpdateData {V} (this : FRuntimeMeshSection V)
  : list FVector :=
  PositionVertexBuffer (base this).

(** [FRuntimeMeshSection::GetAllVertexPositions]. *)
Definition GetAllVertexPositions {V} `{VertexType V}
    (this : FRuntimeMeshSection V) (Positions : list FVector)
  : option (Z * list FVector) :=
  RuntimeMeshSectionInternal.GetAllVertexPositions Traits
    (VertexBuffer this) (PositionVertexBuffer (base this)) Positions.

(** [FRuntimeMeshSection::GenerateTessellationIndices]. *)
Definition GenerateTessellationIndices {V} `{VertexType V}
    (this : FRuntimeMeshSection V) : FRuntimeMeshSection V :=
  let TessellationIndices :=
    if IsDualBufferSection (base this) then
      GenerateTessellationIndexBuffer_Dual (PositionVertexBuffer (base this))
        (VertexBuffer this) (IndexBuffer (base this))
    else
      GenerateTessellationIndexBuffer (VertexBuffer this) (IndexBuffer (base this)) in
  set_base (fst (UpdateTessellationIndexBuffer (base this) TessellationIndices true)) this.

(** [FRuntimeMeshSection::RecalculateBoundingBox]. *)
Definition RecalculateBoundingBox {V} `{VertexType V}
    (this : FRuntimeMeshSection V) : option (FRuntimeMeshSection V) :=
  let this := set_base (set_LocalBoundingBox FBox_Init (base this)) this in
  box ←
    (if IsDualBufferSection (base this) then
       for_upto (length (PositionVertexBuffer (base this)))
         (λ Index box,
            p ← TArray_get (PositionVertexBuffer (base this)) Index;
            Some (FBox_add box p))
         (LocalBoundingBox (base this))
     else
       RuntimeMeshSectionInternal.RecalculateBoundingBox Traits
         (VertexBuffer this) (LocalBoundingBox (base this)));
  Some (set_base (set_LocalBoundingBox box (base this)) this).

(** ** Specification side notions for the bounds *)

(** Order and equality of floats as propositions: both sides are numbers
    and compare so. *)
Definition Float_le (a b : Float) : Prop :=
  match a, b with
  | FNum x, FNum y => (x ≤ y)%Z
  | _, _ => False
  end.

Definition Float_eq (a b : Float) : Prop :=
  match a, b with
  | FNum x, FNum y => x = y
  | _, _ => False
  end.

(** No coordinate is a NaN. *)
Definition is_number (a : Float) : bool :=
  match a with FNum _ => true | NaN => false end.

Definition no_NaN (p : FVector) : bool :=
  is_number (VX p) && is_number (VY p) && is_number (VZ p).

Definition FBox_no_NaN (b : FBox) : bool := no_NaN (Min b) && no_NaN (Max b).

(** A point lies in a box when each coordinate lies between the corners. *)
Definition inside (b : FBox) (p : FVector) : Prop :=
  (Float_le (VX (Min b)) (VX p) ∧ Float_le (VX p) (VX (Max b))) ∧
  (Float_le (VY (Min b)) (VY p) ∧ Float_le (VY p) (VY (Max b))) ∧
  (Float_le (VZ (Min b)) (VZ p) ∧ Float_le (VZ p) (VZ (Max b))).

(** Every face of the box is touched by a point of the sequence. *)
Definition touched (b : FBox) (P : list FVector) : Prop :=
  (∃ p, p ∈ P ∧ Float_eq (VX p) (VX (Min b))) ∧
  (∃ p, p ∈ P ∧ Float_eq (VX p) (VX (Max b))) ∧
  (∃ p, p ∈ P ∧ Float_eq (VY p) (VY (Min b))) ∧
  (∃ p, p ∈ P ∧ Float_eq (VY p) (VY (Max b))) ∧
  (∃ p, p ∈ P ∧ Float_eq (VZ p) (VZ (Min b))) ∧
  (∃ p, p ∈ P ∧ Float_eq (VZ p) (VZ (Max b))).

(** [b] has the extents of the tight axis-aligned box of [P]: it contains
    every point and every face is touched; for the empty sequence it is the
    degenerate box with both corners at the origin. *)
Definition is_tight_box (P : list FVector) (b : FBox) : Prop :=
  match P with
  | [] => FVector_eqb (Min b) ZeroVector = true ∧
          FVector_eqb (Max b) ZeroVector = true
  | _ :: _ => (∀ p, p ∈ P → inside b p) ∧ touched b P
  end.

(** The box the scanning loops accumulate, from the empty box. *)
Definition scan_box (P : list FVector) : FBox := fold_left FBox_add P FBox_Init.

(** The bounds an update proposes: the supplied box, else the scanned one. *)
Definition proposed_box (P : list FVector) (BoundingBox : option FBox) : FBox :=
  match BoundingBox with
  | Some b => b
  | None => scan_box P
  end.

(** The same section constructed with the given dual buffer flag (the flag
    is a [const] member, fixed by the constructor). *)
Definition with_dual_flag {V} (dual : bool) (s : FRuntimeMeshSection V)
  : FRuntimeMeshSection V :=
  MkSection
    (MkInterface dual (PositionVertexBuffer (base s)) (IndexBuffer (base s))
       (TessellationIndexBuffer (base s)) (LocalBoundingBox (base s))
       (CollisionEnabled (base s)) (bIsVisible (base s)) (bCastsShadow (base s))
       (bShouldUseAdjacencyIndexBuffer (base s)) (UpdateFrequency (base s))
       (bIsInternalSectionType (base s)))
    (VertexBuffer s).

(** The positions [RecalculateBoundingBox] scans: the position-only buffer of
    a dual buffer section, else the positions embedded in the vertex records,
    and nothing for a single buffer section whose layout has no position. *)
Definition bounds_source {V} `{VertexType V} (s : FRuntimeMeshSection V)
  : list FVector :=
  if IsDualBufferSection (base s) then PositionVertexBuffer (base s)
  else match Traits with
       | HasPosition Position => map Position (VertexBuffer s)
       | NoPosition => []
       end.

(** The bounds of a section have the extents of the tight box of its
    position source. *)
Definition bounds_tight {V} `{VertexType V} (s : FRuntimeMeshSection V) : Prop :=
  is_tight_box (bounds_source s) (LocalBoundingBox (base s)).

(** ** Concrete vertex types and collaborators used in the examples *)

(** A layout with an embedded position and one more attribute. *)
Record FPositionColorVertex := MkPCVertex { Position : FVector; Color : Z }.

(** A layout without position: a colour only. *)
Record FColorVertex := MkCVertex { ColorOnly : Z }.

(** A stand-in tessellation generator: the triangle list repeated, which gives
    a non-empty output exactly for a non-empty index buffer. *)
Definition example_VertexType_position : VertexType FPositionColorVertex :=
  {| Traits := HasPosition Position;
     GenerateTessellationIndexBuffer := λ _ idx, idx ++ idx;
     GenerateTessellationIndexBuffer_Dual := λ _ _ idx, idx ++ idx |}.

Definition example_VertexType_color : VertexType FColorVertex :=
  {| Traits := NoPosition;
     GenerateTessellationIndexBuffer := λ _ idx, idx ++ idx;
     GenerateTessellationIndexBuffer_Dual := λ _ _ idx, idx ++ idx |}.

(** A rendering side whose proxies report the given adjacency answer. *)
Definition example_backend (wantsAdjacency : bool) : RenderBackend :=
  {| FSceneInterface := unit;
     UMaterialInterface := unit;
     FMaterialRelevance := unit;
     ERHIFeatureLevel := unit;
     GetFeatureLevel := λ _, tt;
     GetRelevance := λ _ _, tt;
     GetDefaultMaterial := tt;
     ProxyWantsAdjacency := λ _ _ _ _ _ _ _, wantsAdjacency |}.

Definition example_version : FRuntimeMeshVersion := {| DualVertexBuffer := 3 |}.

Definition unit_square : list FVector :=
  [vec 0 0 0; vec 1 0 0; vec 1 1 0; vec 0 1 0].

Definition example_interface : FRuntimeMeshSectionInterface :=
  {| bNeedsPositionOnlyBuffer := true;
     PositionVertexBuffer := unit_square;
     IndexBuffer := [0; 1; 2; 0; 2; 3]%Z;
     TessellationIndexBuffer := [];
     LocalBoundingBox := MkBox (vec 0 0 0) (vec 1 1 0) true;
     CollisionEnabled := true;
     bIsVisible := false;
     bCastsShadow := true;
     bShouldUseAdjacencyIndexBuffer := true;
     UpdateFrequency := 2%Z;
     bIsInternalSectionType := false |}.

Definition example_color_section : FRuntimeMeshSection FColorVertex :=
  MkSection example_interface
    [MkCVertex 10; MkCVertex 20; MkCVertex 30; MkCVertex 40].

(** A single buffer section keeps no position-only stream. *)
Definition example_single_interface : FRuntimeMeshSectionInterface :=
  {| bNeedsPositionOnlyBuffer := false;
     PositionVertexBuffer := [];
     IndexBuffer := [0; 1; 2; 0; 2; 3]%Z;
     TessellationIndexBuffer := [];
     LocalBoundingBox := MkBox (vec 0 0 0) (vec 1 1 0) true;
     CollisionEnabled := true;
     bIsVisible := false;
     bCastsShadow := true;
     bShouldUseAdjacencyIndexBuffer := false;
     UpdateFrequency := 1%Z;
     bIsInternalSectionType := false |}.

(** A single buffer section over the layout without position. *)
Definition example_single_color_section : FRuntimeMeshSection FColorVertex :=
  MkSection example_single_interface [MkCVertex 10; MkCVertex 20].

(** A section flagged dual buffer over the layout with position: its
    position-only stream and its embedded positions differ. *)
Definition example_dual_position_section : FRuntimeMeshSection FPositionColorVertex :=
  MkSection example_interface [MkPCVertex (vec 7 7 7) 1].

(** A position sequence with a NaN coordinate in the middle. *)
Definition NaN_positions : list FVector :=
  [vec 1 0 0; MkVector NaN (FNum 0) (FNum 0); vec 5 0 0].

Definition example_position_section : FRuntimeMeshSection FPositionColorVertex :=
  MkSection example_single_interface
    [MkPCVertex (vec 0 0 0) 10; MkPCVertex (vec 1 0 0) 20;
     MkPCVertex (vec 1 1 0) 30; MkPCVertex (vec 0 1 0) 40].

(** * Properties *)

(** ** Value types *)

Lemma Float_eqb_eq (a b : Float) : Float_eqb a b = true → a = b.
Proof.
  destruct a as [|x], b as [|y]; simpl; try discriminate.
  intros H. apply Z.eqb_eq in H. congruence.
Qed.

Lemma Float_eqb_refl (a : Float) : is_number a = true → Float_eqb a a = true.
Proof. destruct a as [|x]; simpl; [discriminate|]. intros _. apply Z.eqb_refl. Qed.

Lemma Float_eqb_is_number (a b : Float) :
  Float_eqb a b = true → is_number a = true ∧ is_number b = true.
Proof. destruct a, b; simpl; try discriminate. auto. Qed.

Lemma Float_eq_eqb (a b : Float) : Float_eq a b ↔ Float_eqb a b = true.
Proof.
  destruct a as [|x], b as [|y]; simpl; try (split; [tauto | discriminate]).
  symmetry. apply Z.eqb_eq.
Qed.

Lemma FMath_Min_num (x y : Z) : FMath_Min (FNum x) (FNum y) = FNum (Z.min x y).
Proof.
  unfold FMath_Min. simpl. destruct (Z.leb_spec x y); f_equal; lia.
Qed.

Lemma FMath_Max_num (x y : Z) : FMath_Max (FNum x) (FNum y) = FNum (Z.max x y).
Proof.
  unfold FMath_Max. simpl. rewrite Z.geb_leb.
  destruct (Z.leb_spec y x); f_equal; lia.
Qed.

(** A NaN on the right comes out of both selections; a NaN on the left is
    dropped. *)
Lemma FMath_NaN (a : Float) :
  FMath_Min a NaN = NaN ∧ FMath_Max a NaN = NaN ∧
  FMath_Min NaN a = a ∧ FMath_Max NaN a = a.
Proof. destruct a; repeat split; reflexivity. Qed.

Lemma no_NaN_inv (p : FVector) : no_NaN p = true → ∃ x y z, p = vec x y z.
Proof.
  destruct p as [[|x] [|y] [|z]]; simpl; try discriminate.
  intros _. exists x, y, z. reflexivity.
Qed.

Lemma FVector_eqb_eq (a b : FVector) : FVector_eqb a b = true → a = b.
Proof.
  destruct a as [ax ay az], b as [bx b_y bz]; unfold FVector_eqb; simpl.
  rewrite !andb_true_iff. intros [[Hx Hy] Hz].
  apply Float_eqb_eq in Hx, Hy, Hz. congruence.
Qed.

Lemma FVector_eqb_refl (a : FVector) : no_NaN a = true → FVector_eqb a a = true.
Proof.
  unfold no_NaN, FVector_eqb. rewrite !andb_true_iff. intros [[Hx Hy] Hz].
  auto using Float_eqb_refl.
Qed.

Lemma FVector_eqb_no_NaN (a b : FVector) :
  FVector_eqb a b = true → no_NaN a = true ∧ no_NaN b = true.
Proof.
  unfold no_NaN, FVector_eqb. rewrite !andb_true_iff. intros [[Hx Hy] Hz].
  apply Float_eqb_is_number in Hx, Hy, Hz. tauto.
Qed.

Lemma FBox_eqb_corners (a b : FBox) :
  FBox_eqb a b = true → Min a = Min b ∧ Max a = Max b.
Proof.
  unfold FBox_eqb. rewrite andb_true_iff. intros [H1 H2].
  split; apply FVector_eqb_eq; assumption.
Qed.

Lemma FBox_eqb_refl (a : FBox) : FBox_no_NaN a = true → FBox_eqb a a = true.
Proof.
  unfold FBox_no_NaN, FBox_eqb. rewrite !andb_true_iff. intros [H1 H2].
  auto using FVector_eqb_refl.
Qed.

Lemma FBox_eqb_no_NaN (a b : FBox) :
  FBox_eqb a b = true → FBox_no_NaN a = true ∧ FBox_no_NaN b = true.
Proof.
  unfold FBox_no_NaN, FBox_eqb. rewrite !andb_true_iff. intros [H1 H2].
  apply FVector_eqb_no_NaN in H1, H2. tauto.
Qed.

Lemma FBox_eqb_trans (a b c : FBox) :
  FBox_eqb a b = true → FBox_eqb b c = true → FBox_eqb a c = true.
Proof.
  intros Hab Hbc. apply FBox_eqb_corners in Hab as [H1 H2].
  unfold FBox_eqb in *. rewrite H1, H2. exact Hbc.
Qed.

(** With a NaN corner a box does not even compare equal to itself. *)
Lemma FBox_eqb_NaN (a b : FBox) : FBox_no_NaN a = false → FBox_eqb a b = false.
Proof.
  intros Ha. destruct (FBox_eqb a b) eqn:E; [|reflexivity].
  apply FBox_eqb_no_NaN in E as [E _]. congruence.
Qed.

(** ** Arrays and loops *)

Lemma SetNumUninitialized_length {A} (junk : A) (n : nat) (a : list A) :
  length (SetNumUninitialized junk n a) = n.
Proof.
  unfold SetNumUninitialized.
  rewrite length_app, length_take, length_replicate. lia.
Qed.

Lemma TArray_set_lt {A} (a : list A) (i : nat) (v : A) :
  i < length a → TArray_set a i v = Some (<[i:=v]> a).
Proof. intros Hi. unfold TArray_set. rewrite decide_True by lia. reflexivity. Qed.

(** A loop that only reads [l] folds its step over the slice it visits. *)
Lemma for_from_read {A St} (l : list A) (f : St → A → St) (n i : nat) (s : St) :
  i + n ≤ length l →
  for_from i n (λ Idx acc, x ← TArray_get l Idx; Some (f acc x)) s
  = Some (fold_left f (take n (drop i l)) s).
Proof.
  revert i s. induction n as [|n IH]; intros i s Hlen; simpl.
  - reflexivity.
  - destruct (lookup_lt_is_Some_2 l i) as [x Hx]; [lia|].
    change (TArray_get l i) with (l !! i). rewrite Hx. simpl.
    rewrite IH by lia. rewrite (drop_S l x i Hx). reflexivity.
Qed.

Lemma for_upto_read {A St} (l : list A) (f : St → A → St) (s : St) :
  for_upto (length l) (λ Idx acc, x ← TArray_get l Idx; Some (f acc x)) s
  = Some (fold_left f l s).
Proof.
  unfold for_upto. rewrite for_from_read by lia.
  rewrite drop_0, firstn_all. reflexivity.
Qed.

(** The copy-and-scan loop: slots [i .. i+n) of the destination receive the
    source, the accumulator scans the same slice. *)
Lemma for_from_copy {A St} (src : list A) (f : St → A → St) (n i : nat)
    (s : St) (buf : list A) :
  i + n ≤ length src → length buf = length src →
  for_from i n
    (λ Idx '(acc, buf),
       v ← TArray_get src Idx;
       w ← TArray_get src Idx;
       buf ← TArray_set buf Idx w;
       Some (f acc v, buf))
    (s, buf)
  = Some (fold_left f (take n (drop i src)) s,
          take i buf ++ take n (drop i src) ++ drop (i + n) buf).
Proof.
  revert i s buf. induction n as [|n IH]; intros i s buf Hlen Hbuf; simpl.
  - rewrite Nat.add_0_r, take_drop. reflexivity.
  - destruct (lookup_lt_is_Some_2 src i) as [x Hx]; [lia|].
    change (TArray_get src i) with (src !! i). rewrite Hx. simpl.
    rewrite (TArray_set_lt buf i x) by lia. simpl.
    rewrite IH by (rewrite ?length_insert; lia).
    rewrite (drop_S src x i Hx). simpl.
    f_equal. f_equal.
    rewrite (take_S_r (<[i:=x]> buf) i x)
      by (apply list_lookup_insert_eq; lia).
    rewrite take_insert_ge by lia.
    rewrite drop_insert_lt by lia.
    rewrite <- app_assoc. simpl.
    replace (S (i + n)) with (i + S n) by lia. reflexivity.
Qed.

Lemma for_upto_copy {A St} (src : list A) (f : St → A → St) (s : St) (buf : list A) :
  length buf = length src →
  for_upto (length src)
    (λ Idx '(acc, buf),
       v ← TArray_get src Idx;
       w ← TArray_get src Idx;
       buf ← TArray_set buf Idx w;
       Some (f acc v, buf))
    (s, buf)
  = Some (fold_left f src s, src).
Proof.
  intros Hbuf. unfold for_upto. rewrite for_from_copy by lia.
  rewrite drop_0, firstn_all. simpl.
  rewrite drop_ge by lia. rewrite app_nil_r. reflexivity.
Qed.

(** The appending loop of [GetAllVertexPositions]. *)
Lemma for_from_append {A B} (l : list A) (g : A → B) (n i : nat) (out : list B) :
  i + n ≤ length l →
  for_from i n (λ Idx out, v ← TArray_get l Idx; Some (out ++ [g v])) out
  = Some (out ++ map g (take n (drop i l))).
Proof.
  intros Hlen.
  rewrite (for_from_read l (λ out v, out ++ [g v]) n i out Hlen).
  f_equal. generalize (take n (drop i l)). intros k. revert out.
  induction k as [|x k IH]; intros out; simpl.
  - rewrite app_nil_r. reflexivity.
  - rewrite IH, <- app_assoc. reflexivity.
Qed.

(** ** The scanned box is the tight box, for positions without NaN *)

Lemma inside_corners (a b : FBox) (p : FVector) :
  Min a = Min b → Max a = Max b → inside a p → inside b p.
Proof. unfold inside. intros -> ->. auto. Qed.

Lemma touched_corners (a b : FBox) (P : list FVector) :
  Min a = Min b → Max a = Max b → touched a P → touched b P.
Proof. unfold touched. intros -> ->. auto. Qed.

Lemma is_tight_box_corners (P : list FVector) (a b : FBox) :
  Min a = Min b → Max a = Max b → is_tight_box P a → is_tight_box P b.
Proof.
  intros Hmin Hmax. destruct P as [|p P]; simpl.
  - rewrite Hmin, Hmax. auto.
  - intros [Hin Ht]. split.
    + intros q Hq. eapply inside_corners; eauto.
    + eapply touched_corners; eauto.
Qed.

Lemma touched_min (L : list FVector) (q : FVector) (c d : Z) (f : FVector → Float) :
  f q = FNum d →
  (∃ p, p ∈ L ∧ Float_eq (f p) (FNum c)) →
  ∃ p, p ∈ L ++ [q] ∧ Float_eq (f p) (FNum (Z.min c d)).
Proof.
  intros Hq [p [Hp Hc]]. destruct (Z.min_spec c d) as [[_ ->]|[_ ->]].
  - exists p. split; [set_solver | assumption].
  - exists q. split; [set_solver | rewrite Hq; reflexivity].
Qed.

Lemma touched_max (L : list FVector) (q : FVector) (c d : Z) (f : FVector → Float) :
  f q = FNum d →
  (∃ p, p ∈ L ∧ Float_eq (f p) (FNum c)) →
  ∃ p, p ∈ L ++ [q] ∧ Float_eq (f p) (FNum (Z.max c d)).
Proof.
  intros Hq [p [Hp Hc]]. destruct (Z.max_spec c d) as [[_ ->]|[_ ->]].
  - exists q. split; [set_solver | rewrite Hq; reflexivity].
  - exists p. split; [set_solver | assumption].
Qed.

Lemma inside_num (b : FBox) (p : FVector) :
  inside b p → no_NaN p = true.
Proof.
  destruct p as [[|x] [|y] [|z]]; unfold inside; simpl;
    destruct (VX (Min b)), (VY (Min b)), (VZ (Min b)); simpl; tauto.
Qed.

(** Adding a point without NaN to a valid box without NaN that is tight for
    [L] gives such a box for [L] followed by the point. *)
Lemma FBox_add_tight (L : list FVector) (b : FBox) (q : FVector) :
  IsValid b = true → FBox_no_NaN b = true → no_NaN q = true →
  (∀ p, p ∈ L → inside b p) → touched b L →
  IsValid (FBox_add b q) = true ∧
  FBox_no_NaN (FBox_add b q) = true ∧
  (∀ p, p ∈ L ++ [q] → inside (FBox_add b q) p) ∧
  touched (FBox_add b q) (L ++ [q]).
Proof.
  intros Hv Hb Hq Hin Ht. unfold FBox_add. rewrite Hv.
  unfold FBox_no_NaN in Hb. apply andb_true_iff in Hb as [Hlo Hhi].
  destruct (no_NaN_inv _ Hlo) as (l1 & l2 & l3 & Elo).
  destruct (no_NaN_inv _ Hhi) as (h1 & h2 & h3 & Ehi).
  destruct (no_NaN_inv _ Hq) as (q1 & q2 & q3 & ->).
  unfold touched, inside in *. rewrite Elo, Ehi in *.
  cbn [vec VX VY VZ Min Max] in *.
  rewrite !FMath_Min_num, !FMath_Max_num.
  split; [reflexivity|]. split; [reflexivity|]. split.
  - intros p Hp. apply elem_of_app in Hp as [Hp|Hp].
    + specialize (Hin p Hp). destruct p as [[|x] [|y] [|z]]; simpl in *;
        try tauto. lia.
    + apply list_elem_of_singleton in Hp as ->. simpl. lia.
  - destruct Ht as (H1 & H2 & H3 & H4 & H5 & H6).
    repeat split;
      first [ apply (touched_min L (vec q1 q2 q3) _ _ VX); [reflexivity|assumption]
            | apply (touched_max L (vec q1 q2 q3) _ _ VX); [reflexivity|assumption]
            | apply (touched_min L (vec q1 q2 q3) _ _ VY); [reflexivity|assumption]
            | apply (touched_max L (vec q1 q2 q3) _ _ VY); [reflexivity|assumption]
            | apply (touched_min L (vec q1 q2 q3) _ _ VZ); [reflexivity|assumption]
            | apply (touched_max L (vec q1 q2 q3) _ _ VZ); [reflexivity|assumption] ].
Qed.

Lemma fold_FBox_add_tight (ps L : list FVector) (b : FBox) :
  IsValid b = true → FBox_no_NaN b = true → forallb no_NaN ps = true →
  (∀ p, p ∈ L → inside b p) → touched b L →
  IsValid (fold_left FBox_add ps b) = true ∧
  FBox_no_NaN (fold_left FBox_add ps b) = true ∧
  (∀ p, p ∈ L ++ ps → inside (fold_left FBox_add ps b) p) ∧
  touched (fold_left FBox_add ps b) (L ++ ps).
Proof.
  revert L b. induction ps as [|q ps IH]; intros L b Hv Hb Hps Hin Ht; simpl.
  - rewrite app_nil_r. auto.
  - simpl in Hps. apply andb_true_iff in Hps as [Hq Hps].
    destruct (FBox_add_tight L b q Hv Hb Hq Hin Ht) as (Hv' & Hb' & Hin' & Ht').
    specialize (IH (L ++ [q]) (FBox_add b q) Hv' Hb' Hps Hin' Ht').
    rewrite <- app_assoc in IH. exact IH.
Qed.

Lemma scan_box_cons (p : FVector) (ps : list FVector) :
  scan_box (p :: ps) = fold_left FBox_add ps (MkBox p p true).
Proof. reflexivity. Qed.

Lemma scan_box_invariant (p : FVector) (ps : list FVector) :
  forallb no_NaN (p :: ps) = true →
  FBox_no_NaN (scan_box (p :: ps)) = true ∧
  (∀ q, q ∈ p :: ps → inside (scan_box (p :: ps)) q) ∧
  touched (scan_box (p :: ps)) (p :: ps).
Proof.
  intros HP. simpl in HP. apply andb_true_iff in HP as [Hp Hps].
  rewrite scan_box_cons.
  destruct (no_NaN_inv _ Hp) as (x & y & z & ->).
  destruct (fold_FBox_add_tight ps [vec x y z] (MkBox (vec x y z) (vec x y z) true))
    as (_ & Hb & Hin & Ht); auto.
  - intros q Hq. apply list_elem_of_singleton in Hq as ->.
    unfold inside. simpl. lia.
  - unfold touched. simpl.
    repeat split; exists (vec x y z); (split; [set_solver | reflexivity]).
Qed.

(** The scanning loop computes the tight box of positions without NaN. *)
Lemma scan_box_tight (P : list FVector) :
  forallb no_NaN P = true → is_tight_box P (scan_box P).
Proof.
  destruct P as [|p ps]; [split; reflexivity|].
  intros HP. destruct (scan_box_invariant p ps HP) as (_ & Hin & Ht).
  split; assumption.
Qed.

Lemma scan_box_no_NaN (P : list FVector) :
  forallb no_NaN P = true → FBox_no_NaN (scan_box P) = true.
Proof.
  destruct P as [|p ps]; [reflexivity|].
  intros HP. apply (scan_box_invariant p ps HP).
Qed.

Lemma FBox_add_IsValid (b : FBox) (q : FVector) : IsValid (FBox_add b q) = true.
Proof. unfold FBox_add. destruct (IsValid b); reflexivity. Qed.

Lemma fold_FBox_add_IsValid (ps : list FVector) (b : FBox) :
  IsValid b = true → IsValid (fold_left FBox_add ps b) = true.
Proof.
  revert b. induction ps as [|q ps IH]; intros b Hv; simpl; [exact Hv|].
  apply IH, FBox_add_IsValid.
Qed.

(** The scanned box is flagged valid exactly when a point was scanned, NaN
    or not. *)
Lemma scan_box_valid (P : list FVector) :
  IsValid (scan_box P) = bool_decide (P ≠ []).
Proof.
  destruct P as [|p ps]; [reflexivity|].
  rewrite scan_box_cons, fold_FBox_add_IsValid by reflexivity.
  symmetry. apply bool_decide_eq_true_2. discriminate.
Qed.

(** ** Closed forms of the buffer updates *)

Lemma fold_left_FBox_add_map {V} (Position : V → FVector) (l : list V) (b : FBox) :
  fold_left (λ acc v, FBox_add acc (Position v)) l b
  = fold_left FBox_add (map Position l) b.
Proof. revert b. induction l as [|v l IH]; intros b; simpl; auto. Qed.

(** [UpdateVertexPositionBuffer] always returns: it stores the positions,
    compares the stored box with the proposed one and adopts the proposed box
    when the comparison fails. The caller's array is emptied by a move. *)
Lemma UpdateVertexPositionBuffer_eq (junk : FVector)
    (s : FRuntimeMeshSectionInterface) (P : list FVector)
    (bb : option FBox) (mv : bool) :
  UpdateVertexPositionBuffer junk s P bb mv =
  Some (MkUpdated
          (negb (FBox_eqb (LocalBoundingBox s) (proposed_box P bb)))
          (if FBox_eqb (LocalBoundingBox s) (proposed_box P bb)
           then set_PositionVertexBuffer P s
           else set_LocalBoundingBox (proposed_box P bb)
                  (set_PositionVertexBuffer P s))
          (if mv then [] else P)).
Proof.
  unfold UpdateVertexPositionBuffer.
  destruct mv, bb as [b|];
    cbn [MoveAssign CopyAssign set_PositionVertexBuffer PositionVertexBuffer
         LocalBoundingBox proposed_box].
  - cbn [mbind option_bind].
    change (LocalBoundingBox (set_PositionVertexBuffer P s))
      with (LocalBoundingBox s).
    destruct (FBox_eqb (LocalBoundingBox s) b); reflexivity.
  - rewrite (for_upto_read P FBox_add FBox_Init).
    cbn [mbind option_bind]. fold (scan_box P).
    cbn [LocalBoundingBox set_PositionVertexBuffer].
    destruct (FBox_eqb (LocalBoundingBox s) (scan_box P)); reflexivity.
  - cbn [mbind option_bind].
    change (LocalBoundingBox (set_PositionVertexBuffer P s))
      with (LocalBoundingBox s).
    destruct (FBox_eqb (LocalBoundingBox s) b); reflexivity.
  - rewrite (for_upto_copy P FBox_add FBox_Init)
      by apply SetNumUninitialized_length.
    cbn [mbind option_bind]. fold (scan_box P).
    cbn [LocalBoundingBox set_PositionVertexBuffer].
    destruct (FBox_eqb (LocalBoundingBox s) (scan_box P)); reflexivity.
Qed.

(** The same for the internal routine of layouts with a position, on the
    pair (VertexBuffer, LocalBoundingBox). *)
Lemma UpdateVertexBufferInternal_HasPosition_eq {V} (Position : V → FVector)
    (junk : V) (vb : list V) (box : FBox) (Vs : list V)
    (bb : option FBox) (mv : bool) :
  RuntimeMeshSectionInternal.UpdateVertexBufferInternal_HasPosition
    Position junk vb box Vs bb mv =
  Some (MkUpdated
          (negb (FBox_eqb box (proposed_box (map Position Vs) bb)))
          (Vs, if FBox_eqb box (proposed_box (map Position Vs) bb)
               then box else proposed_box (map Position Vs) bb)
          (if mv then [] else Vs)).
Proof.
  unfold RuntimeMeshSectionInternal.UpdateVertexBufferInternal_HasPosition.
  destruct mv, bb as [b|]; cbn [MoveAssign CopyAssign proposed_box].
  - cbn [mbind option_bind]. destruct (FBox_eqb box b); reflexivity.
  - rewrite (for_upto_read Vs (λ acc v, FBox_add acc (Position v)) FBox_Init).
    cbn [mbind option_bind]. rewrite fold_left_FBox_add_map.
    fold (scan_box (map Position Vs)).
    destruct (FBox_eqb box (scan_box (map Position Vs))); reflexivity.
  - cbn [mbind option_bind]. destruct (FBox_eqb box b); reflexivity.
  - rewrite (for_upto_copy Vs (λ acc v, FBox_add acc (Position v)) FBox_Init)
      by apply SetNumUninitialized_length.
    cbn [mbind option_bind]. rewrite fold_left_FBox_add_map.
    fold (scan_box (map Position Vs)).
    destruct (FBox_eqb box (scan_box (map Position Vs))); reflexivity.
Qed.

(** ** Bounds maintained by the position update *)

(** C1, as the code has it. For every position sequence [P] without NaN
    coordinate, [UpdateVertexPositionBuffer] without an explicit box returns
    and leaves stored bounds that have the extents of the tight axis-aligned
    box of [P] (both corners at the origin for the empty sequence) and compare
    equal to the scanned box. With an explicit box [B], for every sequence, it
    returns and leaves stored bounds that are [B] itself or compare equal to
    [B], and they compare equal to [B] whenever [B] has no NaN corner.
    Comparison of boxes is [FBox::operator==]: corner by corner, the validity
    flag apart. *)
Theorem UpdateVertexPositionBuffer_bounds (junk : FVector)
    (s : FRuntimeMeshSectionInterface) (P : list FVector) (mv : bool) :
  forallb no_NaN P = true →
  (∃ r, UpdateVertexPositionBuffer junk s P None mv = Some r ∧
        PositionVertexBuffer (updated r) = P ∧
        is_tight_box P (LocalBoundingBox (updated r)) ∧
        FBox_eqb (LocalBoundingBox (updated r)) (scan_box P) = true) ∧
  (∀ P' B, ∃ r, UpdateVertexPositionBuffer junk s P' (Some B) mv = Some r ∧
        PositionVertexBuffer (updated r) = P' ∧
        (FBox_eqb (LocalBoundingBox (updated r)) B = true ∨
         LocalBoundingBox (updated r) = B) ∧
        (FBox_no_NaN B = true → FBox_eqb (LocalBoundingBox (updated r)) B = true)).
Proof.
  intros HP. split.
  - eexists. split; [apply UpdateVertexPositionBuffer_eq|].
    cbn [updated proposed_box].
    destruct (FBox_eqb (LocalBoundingBox s) (scan_box P)) eqn:E.
    + split; [reflexivity|]. split; [|exact E].
      apply FBox_eqb_corners in E as [Hmin Hmax].
      apply (is_tight_box_corners P (scan_box P)); auto using scan_box_tight.
    + split; [reflexivity|]. split; [apply scan_box_tight; exact HP|].
      apply FBox_eqb_refl, scan_box_no_NaN, HP.
  - intros P' B. eexists. split; [apply UpdateVertexPositionBuffer_eq|].
    cbn [updated proposed_box].
    destruct (FBox_eqb (LocalBoundingBox s) B) eqn:E.
    + split; [reflexivity|]. split; [left; exact E | intros _; exact E].
    + split; [reflexivity|]. split; [right; reflexivity|].
      intros HB. apply FBox_eqb_refl, HB.
Qed.

Lemma UpdateVertexPositionBuffer_bounds_witness :
  forallb no_NaN unit_square = true ∧
  (∃ r, UpdateVertexPositionBuffer ZeroVector example_single_interface
          unit_square None false = Some r ∧
        PositionVertexBuffer (updated r) = unit_square ∧
        is_tight_box unit_square (LocalBoundingBox (updated r)) ∧
        FBox_eqb (LocalBoundingBox (updated r)) (scan_box unit_square) = true) ∧
  (∀ P' B, ∃ r, UpdateVertexPositionBuffer ZeroVector example_single_interface
                  P' (Some B) false = Some r ∧
        PositionVertexBuffer (updated r) = P' ∧
        (FBox_eqb (LocalBoundingBox (updated r)) B = true ∨
         LocalBoundingBox (updated r) = B) ∧
        (FBox_no_NaN B = true → FBox_eqb (LocalBoundingBox (updated r)) B = true)).
Proof.
  split; [reflexivity|].
  apply (UpdateVertexPositionBuffer_bounds ZeroVector example_single_interface
           unit_square false).
  reflexivity.
Defined.

(** C1 as stated fails on two counts. A NaN coordinate in the middle of the
    sequence spoils the scan: the stored box does not contain the first
    point. And the comparison ignores the validity flag, so a stored box
    whose corners already agree with the supplied one keeps its own flag and
    is not the supplied box. *)
Lemma UpdateVertexPositionBuffer_bounds_counterexample :
  (∃ r, UpdateVertexPositionBuffer ZeroVector (NewInterface true false 0%Z)
          NaN_positions None false = Some r ∧
        LocalBoundingBox (updated r) = MkBox (vec 5 0 0) (vec 5 0 0) true ∧
        vec 1 0 0 ∈ NaN_positions ∧
        ¬ inside (LocalBoundingBox (updated r)) (vec 1 0 0)) ∧
  (∃ r, UpdateVertexPositionBuffer ZeroVector (NewInterface true false 0%Z)
          [vec 5 5 5] (Some (MkBox ZeroVector ZeroVector true)) false = Some r ∧
        LocalBoundingBox (updated r) ≠ MkBox ZeroVector ZeroVector true).
Proof.
  split.
  - eexists. split; [reflexivity|]. split; [reflexivity|].
    split; [unfold NaN_positions; set_solver|].
    unfold inside. simpl. lia.
  - eexists. split; [reflexivity|]. simpl. discriminate.
Qed.

(** The comparison ignores the validity flag, so a stored box whose corners
    already agree with the proposed one keeps its own flag. *)
Example UpdateVertexPositionBuffer_keeps_flag :
  let s := NewInterface true false 0%Z in
  let B := MkBox ZeroVector ZeroVector true in
  (λ r, (boundsChanged r, IsValid (LocalBoundingBox (updated r))))
    <$> UpdateVertexPositionBuffer ZeroVector s [vec 5 5 5] (Some B) false
  = Some (false, false).
Proof. reflexivity. Qed.

(** C3, as the code has it. [UpdateVertexPositionBuffer] returns [true]
    exactly when the proposed bounds (the supplied box, else the box scanned
    from the positions) fail the corner-wise box comparison with the bounds
    stored before the call; for positions without NaN coordinate, a second
    call with the same
    positions and no explicit box, right after a first one, returns
    [false]. *)
Theorem UpdateVertexPositionBuffer_result (junk junk' : FVector)
    (s : FRuntimeMeshSectionInterface) (P : list FVector) (mv mv' : bool) :
  forallb no_NaN P = true →
  (∀ P' bb, ∃ r, UpdateVertexPositionBuffer junk s P' bb mv = Some r ∧
        boundsChanged r = negb (FBox_eqb (LocalBoundingBox s) (proposed_box P' bb)) ∧
        (boundsChanged r = true ↔
         FBox_eqb (LocalBoundingBox s) (proposed_box P' bb) = false)) ∧
  (∃ r1 r2, UpdateVertexPositionBuffer junk s P None mv = Some r1 ∧
            UpdateVertexPositionBuffer junk' (updated r1) P None mv' = Some r2 ∧
            boundsChanged r2 = false).
Proof.
  intros HP. split.
  - intros P' bb. eexists. split; [apply UpdateVertexPositionBuffer_eq|].
    cbn [boundsChanged]. split; [reflexivity|].
    apply negb_true_iff.
  - eexists. eexists. split; [apply UpdateVertexPositionBuffer_eq|].
    split; [apply UpdateVertexPositionBuffer_eq|].
    cbn [boundsChanged updated proposed_box].
    destruct (FBox_eqb (LocalBoundingBox s) (scan_box P)) eqn:E.
    + cbn [LocalBoundingBox set_PositionVertexBuffer]. rewrite E. reflexivity.
    + cbn [LocalBoundingBox set_LocalBoundingBox].
      rewrite FBox_eqb_refl by (apply scan_box_no_NaN, HP). reflexivity.
Qed.

Lemma UpdateVertexPositionBuffer_result_witness :
  forallb no_NaN unit_square = true ∧
  (∀ P' bb, ∃ r, UpdateVertexPositionBuffer ZeroVector example_single_interface
                   P' bb true = Some r ∧
        boundsChanged r
        = negb (FBox_eqb (LocalBoundingBox example_single_interface)
                  (proposed_box P' bb)) ∧
        (boundsChanged r = true ↔
         FBox_eqb (LocalBoundingBox example_single_interface)
           (proposed_box P' bb) = false)) ∧
  (∃ r1 r2, UpdateVertexPositionBuffer ZeroVector example_single_interface
              unit_square None true = Some r1 ∧
            UpdateVertexPositionBuffer ZeroVector (updated r1)
              unit_square None false = Some r2 ∧
            boundsChanged r2 = false).
Proof.
  split; [reflexivity|].
  apply (UpdateVertexPositionBuffer_result ZeroVector ZeroVector
           example_single_interface unit_square true false).
  reflexivity.
Defined.

(** C3 as stated fails for a position with a NaN coordinate: the scanned
    corners hold the NaN, no box compares equal to them, and every repeated
    call with the same positions returns [true]. *)
Lemma UpdateVertexPositionBuffer_result_counterexample :
  let P := [MkVector NaN (FNum 0) (FNum 0)] in
  ∃ r1 r2, UpdateVertexPositionBuffer ZeroVector (NewInterface true false 0%Z)
             P None false = Some r1 ∧
           UpdateVertexPositionBuffer ZeroVector (updated r1) P None false = Some r2 ∧
           LocalBoundingBox (updated r1) = LocalBoundingBox (updated r2) ∧
           boundsChanged r2 = true.
Proof. eexists. eexists. repeat split; reflexivity. Qed.

(** ** Index buffers *)

(** C8. [UpdateIndexBuffer] and [UpdateTessellationIndexBuffer] replace their
    own index buffer with the supplied sequence, whatever the section held,
    and leave the bounds, the position buffer, the other index buffer and
    every flag as they were; run on the base of a section they leave its
    vertex buffer alone as well. *)
Theorem UpdateIndexBuffers_frame {V} (s : FRuntimeMeshSection V)
    (T : list Z) (mv : bool) :
  let i := fst (UpdateIndexBuffer (base s) T mv) in
  let t := fst (UpdateTessellationIndexBuffer (base s) T mv) in
  (IndexBuffer i = T ∧ i = set_IndexBuffer T (base s) ∧
   TessellationIndexBuffer i = TessellationIndexBuffer (base s) ∧
   PositionVertexBuffer i = PositionVertexBuffer (base s) ∧
   LocalBoundingBox i = LocalBoundingBox (base s) ∧
   VertexBuffer (set_base i s) = VertexBuffer s ∧
   (bNeedsPositionOnlyBuffer i, CollisionEnabled i, bIsVisible i, bCastsShadow i,
    bShouldUseAdjacencyIndexBuffer i, UpdateFrequency i, bIsInternalSectionType i)
   = (bNeedsPositionOnlyBuffer (base s), CollisionEnabled (base s),
      bIsVisible (base s), bCastsShadow (base s),
      bShouldUseAdjacencyIndexBuffer (base s), UpdateFrequency (base s),
      bIsInternalSectionType (base s))) ∧
  (TessellationIndexBuffer t = T ∧ t = set_TessellationIndexBuffer T (base s) ∧
   IndexBuffer t = IndexBuffer (base s) ∧
   PositionVertexBuffer t = PositionVertexBuffer (base s) ∧
   LocalBoundingBox t = LocalBoundingBox (base s) ∧
   VertexBuffer (set_base t s) = VertexBuffer s ∧
   (bNeedsPositionOnlyBuffer t, CollisionEnabled t, bIsVisible t, bCastsShadow t,
    bShouldUseAdjacencyIndexBuffer t, UpdateFrequency t, bIsInternalSectionType t)
   = (bNeedsPositionOnlyBuffer (base s), CollisionEnabled (base s),
      bIsVisible (base s), bCastsShadow (base s),
      bShouldUseAdjacencyIndexBuffer (base s), UpdateFrequency (base s),
      bIsInternalSectionType (base s))).
Proof.
  unfold UpdateIndexBuffer, UpdateTessellationIndexBuffer.
  destruct mv; cbn; repeat split; reflexivity.
Qed.

(** ** The vertex buffer update *)

Lemma set_LocalBoundingBox_same (b : FRuntimeMeshSectionInterface) :
  set_LocalBoundingBox (LocalBoundingBox b) b = b.
Proof. destruct b. reflexivity. Qed.

Lemma UpdateVertexBuffer_HasPosition_eq {V} (Position : V → FVector)
    (g1 : list V → list Z → list Z) (g2 : list FVector → list V → list Z → list Z)
    (junk : V) (s : FRuntimeMeshSection V) (Vs : list V)
    (bb : option FBox) (mv : bool) :
  UpdateVertexBuffer (H := Build_VertexType V (HasPosition Position) g1 g2)
    junk s Vs bb mv =
  let new := proposed_box (map Position Vs) bb in
  Some (MkUpdated
          (negb (FBox_eqb (LocalBoundingBox (base s)) new))
          (MkSection
             (if FBox_eqb (LocalBoundingBox (base s)) new then base s
              else set_LocalBoundingBox new (base s)) Vs)
          (if mv then [] else Vs)).
Proof.
  unfold UpdateVertexBuffer.
  cbn [Traits RuntimeMeshSectionInternal.UpdateVertexBufferInternal].
  rewrite UpdateVertexBufferInternal_HasPosition_eq.
  cbn [mbind option_bind updated boundsChanged callerArray].
  destruct (FBox_eqb (LocalBoundingBox (base s))
              (proposed_box (map Position Vs) bb)).
  - rewrite set_LocalBoundingBox_same. reflexivity.
  - reflexivity.
Qed.

Lemma UpdateVertexBuffer_NoPosition_eq {V}
    (g1 : list V → list Z → list Z) (g2 : list FVector → list V → list Z → list Z)
    (junk : V) (s : FRuntimeMeshSection V) (Vs : list V)
    (bb : option FBox) (mv : bool) :
  UpdateVertexBuffer (H := Build_VertexType V NoPosition g1 g2) junk s Vs bb mv =
  Some (MkUpdated false (set_VertexBuffer Vs s) (if mv then [] else Vs)).
Proof.
  unfold UpdateVertexBuffer, set_VertexBuffer.
  cbn [Traits RuntimeMeshSectionInternal.UpdateVertexBufferInternal].
  unfold RuntimeMeshSectionInternal.UpdateVertexBufferInternal_NoPosition.
  destruct mv; cbn; rewrite set_LocalBoundingBox_same; reflexivity.
Qed.

(** C5. For a layout without embedded position, [UpdateVertexBuffer] (and the
    internal routine it calls) replaces the vertex buffer by the vertices
    passed and nothing else, returns [false], and leaves the stored bounds as
    they were, whatever the vertices, the explicit box and the move flag. *)
Theorem UpdateVertexBuffer_NoPosition_frame {V}
    (g1 : list V → list Z → list Z) (g2 : list FVector → list V → list Z → list Z)
    (junk : V) (s : FRuntimeMeshSection V) (Vs : list V)
    (bb : option FBox) (mv : bool) :
  RuntimeMeshSectionInternal.UpdateVertexBufferInternal NoPosition junk
    (VertexBuffer s) (LocalBoundingBox (base s)) Vs bb mv
  = Some (MkUpdated false (Vs, LocalBoundingBox (base s)) (if mv then [] else Vs)) ∧
  ∃ r, UpdateVertexBuffer (H := Build_VertexType V NoPosition g1 g2)
         junk s Vs bb mv = Some r ∧
       boundsChanged r = false ∧
       updated r = set_VertexBuffer Vs s ∧
       VertexBuffer (updated r) = Vs ∧
       base (updated r) = base s ∧
       LocalBoundingBox (base (updated r)) = LocalBoundingBox (base s).
Proof.
  split.
  - cbn [RuntimeMeshSectionInternal.UpdateVertexBufferInternal].
    unfold RuntimeMeshSectionInternal.UpdateVertexBufferInternal_NoPosition.
    destruct mv; reflexivity.
  - eexists. split; [apply UpdateVertexBuffer_NoPosition_eq|].
    cbn. repeat split; reflexivity.
Qed.

(** C7. The buffer updates leave the same section and return the same flag
    whether the array is moved or copied: the position update, the vertex
    update of every layout, and the two index updates. (Only the caller's own
    array tells the two apart: a move leaves it empty.) *)
Theorem move_copy_equivalent {V} `{VertexType V} (junkP : FVector) (junkV : V)
    (s : FRuntimeMeshSection V) (P : list FVector) (Vs : list V) (T : list Z)
    (bb : option FBox) :
  (∃ r1 r2, UpdateVertexPositionBuffer junkP (base s) P bb true = Some r1 ∧
            UpdateVertexPositionBuffer junkP (base s) P bb false = Some r2 ∧
            updated r1 = updated r2 ∧ boundsChanged r1 = boundsChanged r2) ∧
  (∃ r1 r2, UpdateVertexBuffer junkV s Vs bb true = Some r1 ∧
            UpdateVertexBuffer junkV s Vs bb false = Some r2 ∧
            updated r1 = updated r2 ∧ boundsChanged r1 = boundsChanged r2) ∧
  fst (UpdateIndexBuffer (base s) T true) = fst (UpdateIndexBuffer (base s) T false) ∧
  fst (UpdateTessellationIndexBuffer (base s) T true)
  = fst (UpdateTessellationIndexBuffer (base s) T false).
Proof.
  split; [|split; [|split; reflexivity]].
  - eexists. eexists. split; [apply UpdateVertexPositionBuffer_eq|].
    split; [apply UpdateVertexPositionBuffer_eq|]. split; reflexivity.
  - destruct H as [[Position|] g1 g2].
    + eexists. eexists. split; [apply UpdateVertexBuffer_HasPosition_eq|].
      split; [apply UpdateVertexBuffer_HasPosition_eq|]. split; reflexivity.
    + eexists. eexists. split; [apply UpdateVertexBuffer_NoPosition_eq|].
      split; [apply UpdateVertexBuffer_NoPosition_eq|]. split; reflexivity.
Qed.

(** What does differ between the two modes: the caller's array. *)
Lemma move_empties_caller_array (junk : FVector)
    (s : FRuntimeMeshSectionInterface) (P : list FVector) (bb : option FBox) :
  callerArray <$> UpdateVertexPositionBuffer junk s P bb true = Some [] ∧
  callerArray <$> UpdateVertexPositionBuffer junk s P bb false = Some P.
Proof. rewrite !UpdateVertexPositionBuffer_eq. split; reflexivity. Qed.

(** ** Reading the positions back *)

Lemma GetAllVertexPositions_HasPosition_eq {V} (Position : V → FVector)
    (vb : list V) (pvb out : list FVector) :
  RuntimeMeshSectionInternal.GetAllVertexPositions_HasPosition Position vb pvb out
  = Some (Z.of_nat (length vb), out ++ map Position vb).
Proof.
  unfold RuntimeMeshSectionInternal.GetAllVertexPositions_HasPosition, for_upto.
  rewrite (for_from_append vb Position (length vb) 0 out) by lia.
  rewrite drop_0, firstn_all. reflexivity.
Qed.

(** C6, as the code has it. [GetAllVertexPositions] is selected by the vertex
    layout, not by the section's dual buffer flag. For a layout without
    embedded position, given an empty output array, it returns the section's
    position-only buffer as it is, with its length as count, whatever the
    vertex buffer holds and whichever way the flag is set; for a layout with
    embedded position it returns the positions extracted record by record
    from the vertex buffer, with their count, also on a section flagged dual
    buffer. *)
Theorem GetAllVertexPositions_by_layout {V}
    (g1 : list V → list Z → list Z) (g2 : list FVector → list V → list Z → list Z)
    (s : FRuntimeMeshSection V) (dual : bool) :
  (∀ vb' : list V,
     GetAllVertexPositions (H := Build_VertexType V NoPosition g1 g2)
       (with_dual_flag dual (set_VertexBuffer vb' s)) []
     = Some (Z.of_nat (length (PositionVertexBuffer (base s))),
             PositionVertexBuffer (base s))) ∧
  (∀ Position : V → FVector,
     GetAllVertexPositions (H := Build_VertexType V (HasPosition Position) g1 g2)
       (with_dual_flag dual s) []
     = Some (Z.of_nat (length (VertexBuffer s)), map Position (VertexBuffer s))).
Proof.
  split.
  - intros vb'. reflexivity.
  - intros Position. unfold GetAllVertexPositions.
    cbn [Traits RuntimeMeshSectionInternal.GetAllVertexPositions with_dual_flag
         VertexBuffer base PositionVertexBuffer].
    rewrite GetAllVertexPositions_HasPosition_eq. reflexivity.
Qed.

(** C6 as stated fails on a section flagged dual buffer whose layout embeds
    the position: the call returns the embedded positions, not the
    position-only stream. *)
Lemma GetAllVertexPositions_by_layout_counterexample :
  IsDualBufferSection (base example_dual_position_section) = true ∧
  PositionVertexBuffer (base example_dual_position_section) = unit_square ∧
  GetAllVertexPositions (H := example_VertexType_position)
    example_dual_position_section [] = Some (1%Z, [vec 7 7 7]) ∧
  GetAllVertexPositions (H := example_VertexType_position)
    example_dual_position_section []
  ≠ Some (4%Z, PositionVertexBuffer (base example_dual_position_section)).
Proof. repeat split; try reflexivity. discriminate. Qed.

(** C10. [GetAllVertexPositions] appends to the caller's array without
    clearing it: whatever the array [A] holds, the call returns, the array
    afterwards is [A] followed by the section's positions, and the count
    returned is the number of positions appended. *)
Theorem GetAllVertexPositions_appends {V} `{VertexType V}
    (s : FRuntimeMeshSection V) (A : list FVector) :
  let positions :=
    match Traits with
    | HasPosition Position => map Position (VertexBuffer s)
    | NoPosition => PositionVertexBuffer (base s)
    end in
  GetAllVertexPositions s A = Some (Z.of_nat (length positions), A ++ positions).
Proof.
  unfold GetAllVertexPositions. destruct H as [[Position|] g1 g2];
    cbn [Traits RuntimeMeshSectionInternal.GetAllVertexPositions].
  - rewrite GetAllVertexPositions_HasPosition_eq, length_map. reflexivity.
  - reflexivity.
Qed.

(** ** Snapshots for the render thread *)

Lemma Num_pos_nonempty {A} (l : list A) :
  bool_decide (0 < Num l)%Z = bool_decide (l ≠ []).
Proof.
  apply bool_decide_ext. destruct l as [|x l]; unfold Num; simpl.
  - split; [lia | congruence].
  - split; [discriminate | lia].
Qed.

(** The selection made by [GetSectionCreationData]: the proxy's answer and a
    non-empty tessellation buffer pick the tessellation indices. *)
Lemma GetSectionCreationData_eq {V} `{RenderBackend}
    (s : FRuntimeMeshSection V)
    (InScene : FSceneInterface) (InMaterial : option UMaterialInterface) :
  let d := fst (GetSectionCreationData s InScene InMaterial) in
  let s' := snd (GetSectionCreationData s InScene InMaterial) in
  let wants := ShouldUseAdjacencyIndexBuffer (Create_NewProxy d) in
  let adj := wants && bool_decide (TessellationIndexBuffer (base s) ≠ []) in
  s' = set_base (set_bShouldUseAdjacencyIndexBuffer wants (base s)) s ∧
  Create_IndexBuffer d
  = (if adj then TessellationIndexBuffer (base s) else IndexBuffer (base s)) ∧
  Create_bIsAdjacencyIndexBuffer d = adj ∧
  Create_VertexBuffer d = VertexBuffer s ∧
  Create_PositionVertexBuffer d
  = (if IsDualBufferSection (base s) then PositionVertexBuffer (base s) else []) ∧
  Create_NewProxy d
  = MkProxy _ (IsDualBufferSection (base s)) InScene (UpdateFrequency (base s))
      (bIsVisible (base s)) (bCastsShadow (base s)) InMaterial
      (GetRelevance (default GetDefaultMaterial InMaterial) (GetFeatureLevel InScene)).
Proof.
  rewrite <- (Num_pos_nonempty (TessellationIndexBuffer (base s))).
  unfold GetSectionCreationData, IsDualBufferSection.
  destruct s as [b vb].
  cbn [base VertexBuffer set_base set_bShouldUseAdjacencyIndexBuffer
       bShouldUseAdjacencyIndexBuffer TessellationIndexBuffer IndexBuffer].
  generalize (bool_decide (0 < Num (TessellationIndexBuffer b))%Z). intros t.
  assert (Hrel : match InMaterial with
                 | Some m => GetRelevance m (GetFeatureLevel InScene)
                 | None => GetRelevance GetDefaultMaterial (GetFeatureLevel InScene)
                 end
                 = GetRelevance (default GetDefaultMaterial InMaterial)
                     (GetFeatureLevel InScene))
    by (destruct InMaterial; reflexivity).
  rewrite Hrel. clear Hrel.
  destruct (bNeedsPositionOnlyBuffer b);
    match goal with
    | |- context [ShouldUseAdjacencyIndexBuffer ?p] =>
        destruct (ShouldUseAdjacencyIndexBuffer p) eqn:Hw
    end;
    destruct t; cbn; rewrite ?Hw; repeat split; reflexivity.
Qed.

(** C9. [GetSectionCreationData] overwrites the section's
    [bShouldUseAdjacencyIndexBuffer] with the answer of the proxy it has just
    created, before it selects the index buffer: afterwards the flag equals
    the proxy's answer and nothing else in the section has changed, and the
    payload (hence the selection) is the same whatever value the caller had
    put in the flag. *)
Theorem GetSectionCreationData_overwrites_flag {V} `{RenderBackend}
    (s : FRuntimeMeshSection V)
    (InScene : FSceneInterface) (InMaterial : option UMaterialInterface)
    (callerFlag : bool) :
  let s0 := set_base (set_bShouldUseAdjacencyIndexBuffer callerFlag (base s)) s in
  let d := fst (GetSectionCreationData s0 InScene InMaterial) in
  let s' := snd (GetSectionCreationData s0 InScene InMaterial) in
  let wants := ShouldUseAdjacencyIndexBuffer (Create_NewProxy d) in
  bShouldUseAdjacencyIndexBuffer (base s') = wants ∧
  s' = set_base (set_bShouldUseAdjacencyIndexBuffer wants (base s)) s ∧
  d = fst (GetSectionCreationData s InScene InMaterial) ∧
  Create_IndexBuffer d
  = (if wants && bool_decide (TessellationIndexBuffer (base s) ≠ [])
     then TessellationIndexBuffer (base s) else IndexBuffer (base s)).
Proof.
  intros s0 d s' wants.
  assert (Hd : d = fst (GetSectionCreationData s InScene InMaterial)).
  { subst d s0. unfold GetSectionCreationData. destruct s as [b vb].
    unfold IsDualBufferSection. cbn.
    destruct (bNeedsPositionOnlyBuffer b); reflexivity. }
  destruct (GetSectionCreationData_eq s0 InScene InMaterial)
    as (Hs' & Hidx & _).
  fold d s' wants in Hs', Hidx.
  split; [rewrite Hs'; reflexivity|].
  split; [rewrite Hs'; destruct s as [b vb]; reflexivity|].
  split; [exact Hd|]. exact Hidx.
Qed.

(** The selection made by [GetSectionUpdateData] when indices are included:
    the stored flag and a non-empty tessellation buffer pick the
    tessellation indices. *)
Lemma GetSectionUpdateData_indices {V} (indet : bool) (s : FRuntimeMeshSection V)
    (incP incV : bool) :
  let u := GetSectionUpdateData indet s incP incV true in
  let adj := bShouldUseAdjacencyIndexBuffer (base s)
             && bool_decide (TessellationIndexBuffer (base s) ≠ []) in
  Update_IndexBuffer u
  = (if adj then TessellationIndexBuffer (base s) else IndexBuffer (base s)) ∧
  Update_bIsAdjacencyIndexBuffer u = adj.
Proof.
  unfold GetSectionUpdateData.
  rewrite <- (Num_pos_nonempty (TessellationIndexBuffer (base s))).
  destruct (bShouldUseAdjacencyIndexBuffer (base s)
            && bool_decide (0 < Num (TessellationIndexBuffer (base s)))%Z);
    split; reflexivity.
Qed.

(** C2, as the code has it. After [GenerateTessellationIndices] and with the
    flag set by the caller, [GetSectionCreationData] selects the tessellation
    indices exactly when the new proxy reports that it uses adjacency indices
    and the generated buffer is non-empty, and the plain indices otherwise, so
    always when the tessellation buffer is empty; [GetSectionUpdateData] with
    indices included selects by the stored flag: here, with the flag set, the
    tessellation indices exactly when that buffer is non-empty. *)
Theorem snapshot_index_selection {V} `{VertexType V} `{RenderBackend}
    (s : FRuntimeMeshSection V)
    (InScene : FSceneInterface) (InMaterial : option UMaterialInterface)
    (indet incP incV : bool) :
  let s1 := GenerateTessellationIndices s in
  let s2 := set_base (set_bShouldUseAdjacencyIndexBuffer true (base s1)) s1 in
  let tess := TessellationIndexBuffer (base s1) in
  let d := fst (GetSectionCreationData s2 InScene InMaterial) in
  let u := GetSectionUpdateData indet s2 incP incV true in
  tess = (if IsDualBufferSection (base s)
          then GenerateTessellationIndexBuffer_Dual
                 (PositionVertexBuffer (base s)) (VertexBuffer s) (IndexBuffer (base s))
          else GenerateTessellationIndexBuffer (VertexBuffer s) (IndexBuffer (base s))) ∧
  Create_IndexBuffer d
  = (if ShouldUseAdjacencyIndexBuffer (Create_NewProxy d) && bool_decide (tess ≠ [])
     then tess else IndexBuffer (base s)) ∧
  Update_IndexBuffer u
  = (if bool_decide (tess ≠ []) then tess else IndexBuffer (base s)).
Proof.
  intros s1 s2 tess d u. split; [reflexivity|]. split.
  - destruct (GetSectionCreationData_eq s2 InScene InMaterial) as (_ & Hidx & _).
    exact Hidx.
  - destruct (GetSectionUpdateData_indices indet s2 incP incV) as [Hidx _].
    exact Hidx.
Qed.

(** C2 as stated fails for the creation snapshot: with a non-empty generated
    tessellation buffer and the flag set, a proxy that does not use adjacency
    indices makes the payload carry the plain indices. *)
Lemma snapshot_index_selection_counterexample :
  let s1 := GenerateTessellationIndices (H := example_VertexType_color)
              example_color_section in
  let s2 := set_base (set_bShouldUseAdjacencyIndexBuffer true (base s1)) s1 in
  let d := fst (GetSectionCreationData (H := example_backend false) s2 tt None) in
  TessellationIndexBuffer (base s2) = [0; 1; 2; 0; 2; 3; 0; 1; 2; 0; 2; 3]%Z ∧
  bShouldUseAdjacencyIndexBuffer (base s2) = true ∧
  Create_IndexBuffer d = [0; 1; 2; 0; 2; 3]%Z ∧
  Create_IndexBuffer d ≠ TessellationIndexBuffer (base s2).
Proof. cbv. repeat split; discriminate. Qed.

(** ** Serialization *)

Lemma EUpdateFrequency_cast_roundtrip (f : EUpdateFrequency) :
  valid_EUpdateFrequency f →
  EUpdateFrequency_of_int32 (int32_of_EUpdateFrequency f) = f.
Proof.
  unfold valid_EUpdateFrequency, EUpdateFrequency_of_int32, int32_of_EUpdateFrequency.
  intros Hf. apply Z.mod_small. exact Hf.
Qed.

(** Saving appends the section's values to the stream and, the frequency
    being a byte, leaves the section as it was. *)
Lemma Serialize_save `{FRuntimeMeshVersion} (s : FRuntimeMeshSectionInterface)
    (ver : Z) (pre : list FArchiveItem) :
  valid_EUpdateFrequency (UpdateFrequency s) →
  Serialize s (MkArchive false ver pre)
  = Some (MkArchive false ver (pre ++ section_items s ver), s).
Proof.
  intros Hf. unfold Serialize, section_items.
  destruct s as [dual pvb ib tib box ce vis cs adj uf int].
  cbn [CustomVer]. destruct (DualVertexBuffer <=? ver)%Z; cbn;
    rewrite (EUpdateFrequency_cast_roundtrip uf Hf);
    rewrite <- ?app_assoc; reflexivity.
Qed.

(** Loading takes the values of [s] off the stream into [t]; the position
    buffer of [t] is replaced only at or above the dual vertex buffer
    version. *)
Lemma Serialize_load `{FRuntimeMeshVersion} (t s : FRuntimeMeshSectionInterface)
    (ver : Z) (rest : list FArchiveItem) :
  valid_EUpdateFrequency (UpdateFrequency s) →
  Serialize t (MkArchive true ver (section_items s ver ++ rest))
  = Some (MkArchive true ver rest,
          MkInterface (bNeedsPositionOnlyBuffer t)
            (if (DualVertexBuffer <=? ver)%Z
             then PositionVertexBuffer s else PositionVertexBuffer t)
            (IndexBuffer s) (TessellationIndexBuffer t) (LocalBoundingBox s)
            (CollisionEnabled s) (bIsVisible s) (bCastsShadow t)
            (bShouldUseAdjacencyIndexBuffer t) (UpdateFrequency s)
            (bIsInternalSectionType t)).
Proof.
  intros Hf. unfold Serialize, section_items.
  cbn [CustomVer]. destruct (DualVertexBuffer <=? ver)%Z; cbn;
    rewrite (EUpdateFrequency_cast_roundtrip _ Hf); reflexivity.
Qed.

(** C4, as the code has it. Saving a section and loading the stream into a
    freshly constructed section both succeed, consume the whole stream, and
    reproduce the index buffer, the bounding box, the collision and
    visibility flags and the update frequency. The position buffer is on the
    stream exactly at or above the dual vertex buffer version; below it the
    fresh section keeps its empty position buffer, so the position buffer is
    reproduced exactly when the version is at or above that version or the
    saved position buffer was empty. *)
Theorem Serialize_roundtrip `{FRuntimeMeshVersion}
    (s : FRuntimeMeshSectionInterface) (ver : Z)
    (dual indetAdjacency : bool) (indetFrequency : EUpdateFrequency) :
  valid_EUpdateFrequency (UpdateFrequency s) →
  ∃ Ar Ar' t,
    Serialize s (MkArchive false ver []) = Some (Ar, s) ∧
    Serialize (NewInterface dual indetAdjacency indetFrequency)
      (MkArchive true ver (Stream Ar)) = Some (Ar', t) ∧
    Stream Ar' = [] ∧
    (ArVectors (PositionVertexBuffer s) ∈ Stream Ar ↔ (DualVertexBuffer ≤ ver)%Z) ∧
    IndexBuffer t = IndexBuffer s ∧
    LocalBoundingBox t = LocalBoundingBox s ∧
    CollisionEnabled t = CollisionEnabled s ∧
    bIsVisible t = bIsVisible s ∧
    UpdateFrequency t = UpdateFrequency s ∧
    (PositionVertexBuffer t = PositionVertexBuffer s
     ↔ (DualVertexBuffer ≤ ver)%Z ∨ PositionVertexBuffer s = []).
Proof.
  intros Hf. eexists. eexists. eexists.
  split; [apply (Serialize_save s ver [] Hf)|].
  cbn [Stream app].
  split.
  { rewrite <- (app_nil_r (section_items s ver)).
    apply (Serialize_load _ s ver [] Hf). }
  cbn [Stream IndexBuffer LocalBoundingBox CollisionEnabled bIsVisible
       UpdateFrequency PositionVertexBuffer NewInterface].
  split; [reflexivity|]. unfold section_items.
  destruct (Z.leb_spec DualVertexBuffer ver) as [Hle|Hlt].
  - split; [split; [auto | intros _; apply elem_of_app; left; set_solver]|].
    repeat (split; [reflexivity|]). split; auto.
  - split.
    { split; [|lia]. cbn [app]. rewrite !elem_of_cons, elem_of_nil.
      intros Hin. decompose [or] Hin; discriminate || contradiction. }
    repeat (split; [reflexivity|]). split.
    + intros Heq. right. symmetry. exact Heq.
    + intros [Hle|Hnil]; [lia | symmetry; exact Hnil].
Qed.

Lemma Serialize_roundtrip_witness :
  valid_EUpdateFrequency (UpdateFrequency example_interface) ∧
  ∃ Ar Ar' t,
    Serialize (H := example_version) example_interface (MkArchive false 3 [])
    = Some (Ar, example_interface) ∧
    Serialize (H := example_version) (NewInterface true false 0%Z)
      (MkArchive true 3 (Stream Ar)) = Some (Ar', t) ∧
    Stream Ar' = [] ∧
    (ArVectors (PositionVertexBuffer example_interface) ∈ Stream Ar
     ↔ (DualVertexBuffer (FRuntimeMeshVersion := example_version) ≤ 3)%Z) ∧
    IndexBuffer t = IndexBuffer example_interface ∧
    LocalBoundingBox t = LocalBoundingBox example_interface ∧
    CollisionEnabled t = CollisionEnabled example_interface ∧
    bIsVisible t = bIsVisible example_interface ∧
    UpdateFrequency t = UpdateFrequency example_interface ∧
    (PositionVertexBuffer t = PositionVertexBuffer example_interface
     ↔ (DualVertexBuffer (FRuntimeMeshVersion := example_version) ≤ 3)%Z
       ∨ PositionVertexBuffer example_interface = []).
Proof.
  split.
  - unfold valid_EUpdateFrequency. simpl. lia.
  - apply (Serialize_roundtrip (H := example_version) example_interface 3
             true false 0%Z).
    unfold valid_EUpdateFrequency. simpl. lia.
Defined.

(** C4 as stated fails in one direction: a section without position-only
    stream, written below the dual vertex buffer version, comes back with an
    identical (empty) position buffer. *)
Lemma Serialize_roundtrip_counterexample :
  ∃ Ar t,
    Serialize (H := example_version) example_single_interface
      (MkArchive false 0 []) = Some (Ar, example_single_interface) ∧
    Serialize (H := example_version) (NewInterface false false 0%Z)
      (MkArchive true 0 (Stream Ar)) = Some (MkArchive true 0 [], t) ∧
    ¬ (PositionVertexBuffer t = PositionVertexBuffer example_single_interface
       ↔ (DualVertexBuffer (FRuntimeMeshVersion := example_version) ≤ 0)%Z).
Proof.
  eexists. eexists. split; [reflexivity|]. split; [reflexivity|].
  cbn. intros [Hto _]. specialize (Hto eq_refl). lia.
Qed.

(** ** The unit square, worked through *)

(** A dual buffer section holding the unit square: recalculating the bounds
    gives the box spanning the four positions, and the creation payload
    carries the six indices and the four positions. *)
Example unit_square_bounds :
  LocalBoundingBox ∘ base
    <$> RecalculateBoundingBox (H := example_VertexType_color)
          (set_VertexBuffer [] example_color_section)
  = Some (MkBox (vec 0 0 0) (vec 1 1 0) true).
Proof. reflexivity. Qed.

Example unit_square_creation_payload :
  let d := fst (GetSectionCreationData (H := example_backend false)
                  (set_VertexBuffer [] example_color_section) tt None) in
  Create_IndexBuffer d = [0; 1; 2; 0; 2; 3]%Z ∧
  Create_PositionVertexBuffer d = unit_square ∧
  Create_VertexBuffer d = [].
Proof. repeat split; reflexivity. Qed.

(** An empty section: recalculating the bounds gives the degenerate box. *)
Example empty_section_bounds :
  LocalBoundingBox ∘ base
    <$> RecalculateBoundingBox (H := example_VertexType_position)
          (NewSection false false 0%Z)
  = Some FBox_Init.
Proof. reflexivity. Qed.

(** The embedded-position update scans the positions of the records. *)
Example UpdateVertexBuffer_unit_square :
  (λ r, (boundsChanged r, LocalBoundingBox (base (updated r)), callerArray r))
    <$> UpdateVertexBuffer (H := example_VertexType_position)
          (MkPCVertex ZeroVector 0) (NewSection false false 0%Z)
          (VertexBuffer example_position_section) None true
  = Some (true, MkBox (vec 0 0 0) (vec 1 1 0) true, []).
Proof. reflexivity. Qed.

(** ** Forced rescan of the bounds *)

Lemma RecalculateBoundingBox_eq {V} `{VertexType V} (s : FRuntimeMeshSection V) :
  RecalculateBoundingBox s
  = Some (set_base (set_LocalBoundingBox (scan_box (bounds_source s)) (base s)) s).
Proof.
  unfold RecalculateBoundingBox, bounds_source, IsDualBufferSection.
  destruct s as [b vb].
  cbn [base VertexBuffer set_base set_LocalBoundingBox bNeedsPositionOnlyBuffer
       PositionVertexBuffer LocalBoundingBox].
  destruct (bNeedsPositionOnlyBuffer b).
  - rewrite (for_upto_read (PositionVertexBuffer b) FBox_add FBox_Init).
    reflexivity.
  - destruct H as [[Position|] g1 g2];
      cbn [Traits RuntimeMeshSectionInternal.RecalculateBoundingBox].
    + unfold RuntimeMeshSectionInternal.RecalculateBoundingBox_HasPosition.
      rewrite (for_upto_read vb (λ acc v, FBox_add acc (Position v)) FBox_Init).
      rewrite fold_left_FBox_add_map. reflexivity.
    + reflexivity.
Qed.

(** X1. [RecalculateBoundingBox] always returns, changes nothing but the
    bounds, and overwrites them, validity flag included, with the box scanned
    from the section's position source, flagged valid exactly when there is
    at least one position; the previous bounds play no part. When no position
    of the source has a NaN coordinate, the new bounds are the tight box of
    those positions. *)
Theorem RecalculateBoundingBox_rescans {V} `{VertexType V}
    (s : FRuntimeMeshSection V) :
  forallb no_NaN (bounds_source s) = true →
  (∀ (s0 : FRuntimeMeshSection V) (old : FBox),
     ∃ s', RecalculateBoundingBox
             (set_base (set_LocalBoundingBox old (base s0)) s0) = Some s' ∧
           RecalculateBoundingBox s0 = Some s' ∧
           s' = set_base (set_LocalBoundingBox (LocalBoundingBox (base s')) (base s0)) s0 ∧
           LocalBoundingBox (base s') = scan_box (bounds_source s0) ∧
           IsValid (LocalBoundingBox (base s')) = bool_decide (bounds_source s0 ≠ [])) ∧
  ∃ s', RecalculateBoundingBox s = Some s' ∧
        is_tight_box (bounds_source s) (LocalBoundingBox (base s')).
Proof.
  intros Hsrc. split.
  - intros s0 old. eexists. split; [|split; [apply RecalculateBoundingBox_eq|]].
    + rewrite RecalculateBoundingBox_eq. destruct s0 as [b vb]. reflexivity.
    + cbn [base set_base LocalBoundingBox set_LocalBoundingBox].
      split; [reflexivity|]. split; [reflexivity | apply scan_box_valid].
  - eexists. split; [apply RecalculateBoundingBox_eq|].
    cbn [base set_base LocalBoundingBox set_LocalBoundingBox].
    apply scan_box_tight, Hsrc.
Qed.

Lemma RecalculateBoundingBox_rescans_witness :
  forallb no_NaN (bounds_source (H := example_VertexType_color) example_color_section)
  = true ∧
  (∀ (s0 : FRuntimeMeshSection FColorVertex) (old : FBox),
     ∃ s', RecalculateBoundingBox (H := example_VertexType_color)
             (set_base (set_LocalBoundingBox old (base s0)) s0) = Some s' ∧
           RecalculateBoundingBox (H := example_VertexType_color) s0 = Some s' ∧
           s' = set_base (set_LocalBoundingBox (LocalBoundingBox (base s')) (base s0)) s0 ∧
           LocalBoundingBox (base s')
           = scan_box (bounds_source (H := example_VertexType_color) s0) ∧
           IsValid (LocalBoundingBox (base s'))
           = bool_decide (bounds_source (H := example_VertexType_color) s0 ≠ [])) ∧
  ∃ s', RecalculateBoundingBox (H := example_VertexType_color) example_color_section
        = Some s' ∧
        is_tight_box (bounds_source (H := example_VertexType_color) example_color_section)
          (LocalBoundingBox (base s')).
Proof.
  split; [reflexivity|].
  apply (RecalculateBoundingBox_rescans (H := example_VertexType_color)
           example_color_section).
  reflexivity.
Defined.

(** X2. On a single buffer section whose layout has no position there is
    nothing to scan: [RecalculateBoundingBox] resets the bounds to the empty
    box, whatever they were and whatever the buffers hold. *)
Theorem RecalculateBoundingBox_NoPosition_single {V}
    (g1 : list V → list Z → list Z) (g2 : list FVector → list V → list Z → list Z)
    (s : FRuntimeMeshSection V) :
  IsDualBufferSection (base s) = false →
  RecalculateBoundingBox (H := Build_VertexType V NoPosition g1 g2) s
  = Some (set_base (set_LocalBoundingBox FBox_Init (base s)) s).
Proof.
  intros Hsingle. rewrite RecalculateBoundingBox_eq.
  unfold bounds_source. rewrite Hsingle. reflexivity.
Qed.

Lemma RecalculateBoundingBox_NoPosition_single_witness :
  IsDualBufferSection (base example_single_color_section) = false ∧
  RecalculateBoundingBox (H := example_VertexType_color) example_single_color_section
  = Some (set_base (set_LocalBoundingBox FBox_Init
                      (base example_single_color_section))
            example_single_color_section).
Proof.
  split; [reflexivity|].
  apply (RecalculateBoundingBox_NoPosition_single
           (λ _ idx, idx ++ idx) (λ _ _ idx, idx ++ idx)
           example_single_color_section).
  reflexivity.
Defined.

(** ** The tracked update and the forced rescan *)

Lemma bounds_source_dual {V} `{VertexType V} (s : FRuntimeMeshSection V) :
  IsDualBufferSection (base s) = true →
  bounds_source s = PositionVertexBuffer (base s).
Proof. intros Hd. unfold bounds_source. rewrite Hd. reflexivity. Qed.

(** X3. On a dual buffer section, for positions without NaN coordinate,
    [RecalculateBoundingBox] after a position update leaves the tight box of
    the new positions whatever box the caller had supplied with the update;
    when none was supplied the rescan agrees, corner for corner, with the
    bounds the update had left. *)
Theorem RecalculateBoundingBox_after_position_update {V} `{VertexType V}
    (junk : FVector) (s : FRuntimeMeshSection V) (P : list FVector)
    (bb : option FBox) (mv : bool) :
  IsDualBufferSection (base s) = true →
  forallb no_NaN P = true →
  ∃ r s', UpdateVertexPositionBuffer junk (base s) P bb mv = Some r ∧
          RecalculateBoundingBox (set_base (updated r) s) = Some s' ∧
          is_tight_box P (LocalBoundingBox (base s')) ∧
          match bb with
          | None =>
              FBox_eqb (LocalBoundingBox (updated r)) (LocalBoundingBox (base s')) = true
          | Some _ => True
          end.
Proof.
  intros Hd HP. eexists. eexists.
  split; [apply UpdateVertexPositionBuffer_eq|].
  split; [apply RecalculateBoundingBox_eq|].
  cbn [updated base set_base LocalBoundingBox set_LocalBoundingBox].
  assert (Hsrc : ∀ b', bNeedsPositionOnlyBuffer b' = true →
                       PositionVertexBuffer b' = P →
                       bounds_source (set_base b' s) = P).
  { intros b' Hb' HP'. rewrite bounds_source_dual by exact Hb'. exact HP'. }
  unfold IsDualBufferSection in Hd.
  destruct (FBox_eqb (LocalBoundingBox (base s)) (proposed_box P bb)) eqn:E;
    rewrite Hsrc by (try exact Hd; reflexivity).
  - split; [apply scan_box_tight, HP|]. destruct bb; [exact I|].
    cbn [LocalBoundingBox set_PositionVertexBuffer]. exact E.
  - split; [apply scan_box_tight, HP|]. destruct bb; [exact I|].
    cbn [proposed_box]. apply FBox_eqb_refl, scan_box_no_NaN, HP.
Qed.

Lemma RecalculateBoundingBox_after_position_update_witness :
  IsDualBufferSection (base example_color_section) = true ∧
  forallb no_NaN [vec 2 3 4; vec (-1) 0 7] = true ∧
  ∃ r s', UpdateVertexPositionBuffer ZeroVector (base example_color_section)
            [vec 2 3 4; vec (-1) 0 7] None false = Some r ∧
          RecalculateBoundingBox (H := example_VertexType_color)
            (set_base (updated r) example_color_section) = Some s' ∧
          is_tight_box [vec 2 3 4; vec (-1) 0 7]
            (LocalBoundingBox (base s')) ∧
          FBox_eqb (LocalBoundingBox (updated r)) (LocalBoundingBox (base s')) = true.
Proof.
  split; [reflexivity|]. split; [reflexivity|].
  apply (RecalculateBoundingBox_after_position_update
           (H := example_VertexType_color) ZeroVector example_color_section
           [vec 2 3 4; vec (-1) 0 7] None false); reflexivity.
Defined.



(** X5. [UpdateVertexPositionBuffer] changes the position buffer and the
    bounds only. When it returns [true] the stored box is the proposed box in
    every field; when it returns [false] the stored box is the old one in
    every field, validity flag included. *)
Theorem UpdateVertexPositionBuffer_frame (junk : FVector)
    (s : FRuntimeMeshSectionInterface) (P : list FVector)
    (bb : option FBox) (mv : bool) :
  ∃ r, UpdateVertexPositionBuffer junk s P bb mv = Some r ∧
       updated r
       = set_LocalBoundingBox (LocalBoundingBox (updated r))
           (set_PositionVertexBuffer P s) ∧
       LocalBoundingBox (updated r)
       = (if boundsChanged r then proposed_box P bb else LocalBoundingBox s).
Proof.
  eexists. split; [apply UpdateVertexPositionBuffer_eq|].
  cbn [updated boundsChanged].
  destruct (FBox_eqb (LocalBoundingBox s) (proposed_box P bb)).
  - split; [|reflexivity]. destruct s. reflexivity.
  - split; reflexivity.
Qed.

(** X6. The copying path never shows uninitialised or stale slots: the
    outcome of a copying position update is the same whatever the grown slots
    held and whatever, longer or shorter, the position buffer held before. *)
Theorem UpdateVertexPositionBuffer_copy_clean (junk1 junk2 : FVector)
    (old1 old2 : list FVector)
    (s : FRuntimeMeshSectionInterface) (P : list FVector) (bb : option FBox) :
  UpdateVertexPositionBuffer junk1 (set_PositionVertexBuffer old1 s) P bb false
  = UpdateVertexPositionBuffer junk2 (set_PositionVertexBuffer old2 s) P bb false ∧
  ∃ r, UpdateVertexPositionBuffer junk1 (set_PositionVertexBuffer old1 s) P bb false
       = Some r ∧
       PositionVertexBuffer (updated r) = P ∧ callerArray r = P.
Proof.
  rewrite !UpdateVertexPositionBuffer_eq. split; [reflexivity|].
  eexists. split; [reflexivity|]. cbn [updated callerArray].
  cbn [LocalBoundingBox set_PositionVertexBuffer].
  destruct (FBox_eqb (LocalBoundingBox s) (proposed_box P bb)); split; reflexivity.
Qed.

(** ** The bounds depend on the positions only as a set *)

(** Per coordinate: two intervals that both contain all values and are both
    attained at their ends are the same interval. *)
Lemma extent_unique (f : FVector → Float) (P : list FVector)
    (lo hi lo' hi' : Float) :
  (∀ p, p ∈ P → Float_le lo (f p) ∧ Float_le (f p) hi) →
  (∀ p, p ∈ P → Float_le lo' (f p) ∧ Float_le (f p) hi') →
  (∃ p, p ∈ P ∧ Float_eq (f p) lo) → (∃ p, p ∈ P ∧ Float_eq (f p) hi) →
  (∃ p, p ∈ P ∧ Float_eq (f p) lo') → (∃ p, p ∈ P ∧ Float_eq (f p) hi') →
  lo = lo' ∧ hi = hi'.
Proof.
  intros Hin Hin' (p1 & Hp1 & E1) (p2 & Hp2 & E2) (p3 & Hp3 & E3) (p4 & Hp4 & E4).
  pose proof (Hin' p1 Hp1) as [A1 _]. pose proof (Hin' p2 Hp2) as [_ A2].
  pose proof (Hin p3 Hp3) as [A3 _]. pose proof (Hin p4 Hp4) as [_ A4].
  destruct lo as [|l]; [destruct (f p1); contradiction|].
  destruct hi as [|h]; [destruct (f p2); contradiction|].
  destruct lo' as [|l']; [destruct (f p3); contradiction|].
  destruct hi' as [|h']; [destruct (f p4); contradiction|].
  destruct (f p1) as [|x1]; [contradiction|].
  destruct (f p2) as [|x2]; [contradiction|].
  destruct (f p3) as [|x3]; [contradiction|].
  destruct (f p4) as [|x4]; [contradiction|].
  simpl in *. split; f_equal; lia.
Qed.

Lemma is_tight_box_unique (P : list FVector) (a b : FBox) :
  is_tight_box P a → is_tight_box P b → Min a = Min b ∧ Max a = Max b.
Proof.
  destruct P as [|p0 P]; simpl.
  - intros [Ha1 Ha2] [Hb1 Hb2].
    apply FVector_eqb_eq in Ha1, Ha2, Hb1, Hb2. split; congruence.
  - intros [Hina Hta] [Hinb Htb].
    destruct Hta as (T1 & T2 & T3 & T4 & T5 & T6).
    destruct Htb as (U1 & U2 & U3 & U4 & U5 & U6).
    destruct (extent_unique VX (p0 :: P) (VX (Min a)) (VX (Max a))
                (VX (Min b)) (VX (Max b))) as [X1 X2]; auto;
      try (intros p Hp; first [apply (Hina p Hp) | apply (Hinb p Hp)]).
    destruct (extent_unique VY (p0 :: P) (VY (Min a)) (VY (Max a))
                (VY (Min b)) (VY (Max b))) as [Y1 Y2]; auto;
      try (intros p Hp; first [apply (Hina p Hp) | apply (Hinb p Hp)]).
    destruct (extent_unique VZ (p0 :: P) (VZ (Min a)) (VZ (Max a))
                (VZ (Min b)) (VZ (Max b))) as [Z1 Z2]; auto;
      try (intros p Hp; first [apply (Hina p Hp) | apply (Hinb p Hp)]).
    destruct a as [[ax ay az] [bx b_y bz] va], b as [[cx cy cz] [dx dy dz] vb].
    simpl in *. split; congruence.
Qed.

Lemma is_tight_box_Permutation (P Q : list FVector) (b : FBox) :
  P ≡ₚ Q → is_tight_box P b → is_tight_box Q b.
Proof.
  intros HPQ. destruct P as [|p P].
  - apply Permutation_nil in HPQ as ->. auto.
  - destruct Q as [|q Q]; [symmetry in HPQ; apply Permutation_nil in HPQ; discriminate|].
    simpl. intros [Hin Ht]. split.
    + intros x Hx. apply Hin. rewrite HPQ. exact Hx.
    + unfold touched in *.
      destruct Ht as ((p1 & Hp1 & E1) & (p2 & Hp2 & E2) & (p3 & Hp3 & E3) &
                      (p4 & Hp4 & E4) & (p5 & Hp5 & E5) & (p6 & Hp6 & E6)).
      rewrite HPQ in Hp1, Hp2, Hp3, Hp4, Hp5, Hp6.
      repeat split; eauto.
Qed.

Lemma forallb_Permutation {A} (f : A → bool) (P Q : list A) :
  P ≡ₚ Q → forallb f P = true → forallb f Q = true.
Proof.
  intros HPQ. rewrite !forallb_forall. intros HP x Hx.
  apply HP. eapply Permutation_in; [symmetry; exact HPQ | exact Hx].
Qed.

Lemma scan_box_Permutation (P Q : list FVector) :
  P ≡ₚ Q → forallb no_NaN P = true →
  FBox_eqb (scan_box P) (scan_box Q) = true.
Proof.
  intros HPQ HP.
  pose proof (forallb_Permutation _ _ _ HPQ HP) as HQ.
  destruct (is_tight_box_unique Q (scan_box P) (scan_box Q)) as [Hmin Hmax].
  - apply (is_tight_box_Permutation P Q _ HPQ), scan_box_tight, HP.
  - apply scan_box_tight, HQ.
  - unfold FBox_eqb. rewrite Hmin, Hmax.
    apply (FBox_eqb_refl (scan_box Q)), scan_box_no_NaN, HQ.
Qed.

(** X7. For positions without NaN coordinate the scanned bounds do not depend
    on the order of the positions: a position update with a reordering of the
    positions just stored, no box supplied, stores the reordered sequence and
    returns [false]. *)
Theorem UpdateVertexPositionBuffer_reorder (junk junk' : FVector)
    (s : FRuntimeMeshSectionInterface) (P Q : list FVector) (mv mv' : bool) :
  P ≡ₚ Q →
  forallb no_NaN P = true →
  ∃ r1 r2, UpdateVertexPositionBuffer junk s P None mv = Some r1 ∧
           UpdateVertexPositionBuffer junk' (updated r1) Q None mv' = Some r2 ∧
           boundsChanged r2 = false ∧
           PositionVertexBuffer (updated r2) = Q ∧
           LocalBoundingBox (updated r2) = LocalBoundingBox (updated r1).
Proof.
  intros HPQ HP. eexists. eexists.
  split; [apply UpdateVertexPositionBuffer_eq|].
  split; [apply UpdateVertexPositionBuffer_eq|].
  cbn [updated boundsChanged proposed_box].
  pose proof (scan_box_Permutation P Q HPQ HP) as Hperm.
  assert (Hkeep : FBox_eqb
            (LocalBoundingBox
               (if FBox_eqb (LocalBoundingBox s) (scan_box P)
                then set_PositionVertexBuffer P s
                else set_LocalBoundingBox (scan_box P) (set_PositionVertexBuffer P s)))
            (scan_box Q) = true).
  { destruct (FBox_eqb (LocalBoundingBox s) (scan_box P)) eqn:E.
    - cbn [LocalBoundingBox set_PositionVertexBuffer].
      eapply FBox_eqb_trans; eassumption.
    - exact Hperm. }
  rewrite Hkeep. cbn [negb].
  split; [reflexivity|]. split; reflexivity.
Qed.

Lemma UpdateVertexPositionBuffer_reorder_witness :
  unit_square ≡ₚ reverse unit_square ∧
  forallb no_NaN unit_square = true ∧
  ∃ r1 r2, UpdateVertexPositionBuffer ZeroVector example_single_interface
             unit_square None true = Some r1 ∧
           UpdateVertexPositionBuffer ZeroVector (updated r1)
             (reverse unit_square) None false = Some r2 ∧
           boundsChanged r2 = false ∧
           PositionVertexBuffer (updated r2) = reverse unit_square ∧
           LocalBoundingBox (updated r2) = LocalBoundingBox (updated r1).
Proof.
  split; [apply (bool_decide_eq_true_1 _); vm_compute; reflexivity|].
  split; [reflexivity|].
  apply (UpdateVertexPositionBuffer_reorder ZeroVector ZeroVector
           example_single_interface unit_square (reverse unit_square) true false).
  - apply (bool_decide_eq_true_1 _). vm_compute. reflexivity.
  - reflexivity.
Defined.

(** With a NaN among the positions the order does matter. *)
Example scan_box_NaN_order :
  scan_box [vec 1 0 0; MkVector NaN (FNum 0) (FNum 0); vec 5 0 0]
  = MkBox (vec 5 0 0) (vec 5 0 0) true ∧
  scan_box [MkVector NaN (FNum 0) (FNum 0); vec 1 0 0; vec 5 0 0]
  = MkBox (vec 1 0 0) (vec 5 0 0) true.
Proof. split; reflexivity. Qed.

(** ** The internal rescan extends the box it is given *)

Lemma FMath_Min_le (c : Float) (d e : Z) :
  Float_le c (FNum e) → Float_le (FMath_Min c (FNum d)) (FNum e).
Proof.
  destruct c as [|x]; [contradiction|]. rewrite FMath_Min_num. simpl. lia.
Qed.

Lemma FMath_Max_ge (c : Float) (d e : Z) :
  Float_le (FNum e) c → Float_le (FNum e) (FMath_Max c (FNum d)).
Proof.
  destruct c as [|x]; [contradiction|]. rewrite FMath_Max_num. simpl. lia.
Qed.

Lemma FMath_Min_le_new (c : Float) (d : Z) : Float_le (FMath_Min c (FNum d)) (FNum d).
Proof.
  destruct c as [|x]; [simpl; lia|]. rewrite FMath_Min_num. simpl. lia.
Qed.

Lemma FMath_Max_ge_new (c : Float) (d : Z) : Float_le (FNum d) (FMath_Max c (FNum d)).
Proof.
  destruct c as [|x]; [simpl; lia|]. rewrite FMath_Max_num. simpl. lia.
Qed.

Lemma FBox_add_grows (b : FBox) (q p : FVector) :
  IsValid b = true → no_NaN q = true → inside b p → inside (FBox_add b q) p.
Proof.
  intros Hv Hq Hin. unfold FBox_add. rewrite Hv.
  destruct (no_NaN_inv _ Hq) as (q1 & q2 & q3 & ->).
  pose proof (inside_num b p Hin) as Hp.
  destruct (no_NaN_inv _ Hp) as (p1 & p2 & p3 & ->).
  unfold inside in *. cbn [vec VX VY VZ Min Max] in *.
  destruct Hin as ((A1 & A2) & (B1 & B2) & (C1 & C2)).
  repeat split; auto using FMath_Min_le, FMath_Max_ge.
Qed.

Lemma FBox_add_valid (b : FBox) (q : FVector) :
  IsValid b = true → no_NaN q = true → inside (FBox_add b q) q.
Proof.
  intros Hv Hq. unfold FBox_add. rewrite Hv.
  destruct (no_NaN_inv _ Hq) as (q1 & q2 & q3 & ->).
  unfold inside. cbn [vec VX VY VZ Min Max].
  repeat split; auto using FMath_Min_le_new, FMath_Max_ge_new.
Qed.

Lemma fold_FBox_add_grows (ps : list FVector) (b : FBox) :
  IsValid b = true → forallb no_NaN ps = true →
  IsValid (fold_left FBox_add ps b) = true ∧
  (∀ p, inside b p → inside (fold_left FBox_add ps b) p) ∧
  (∀ q, q ∈ ps → inside (fold_left FBox_add ps b) q).
Proof.
  revert b. induction ps as [|x ps IH]; intros b Hv Hps; simpl.
  - split; [exact Hv|]. split; [auto|]. intros q Hq. inversion Hq.
  - simpl in Hps. apply andb_true_iff in Hps as [Hx Hps].
    destruct (IH (FBox_add b x) (FBox_add_IsValid b x) Hps) as (Hvf & Hold & Hnew).
    split; [exact Hvf|]. split.
    + intros p Hp. apply Hold, FBox_add_grows; assumption.
    + intros q Hq. apply elem_of_cons in Hq as [->|Hq]; auto.
      apply Hold, FBox_add_valid; assumption.
Qed.

(** X8. The internal [RecalculateBoundingBox] of a layout with position does
    not reset the box it is handed: from a valid box, and for vertex
    positions without NaN coordinate, it returns a valid box that still
    contains every point the old box contained and contains the position of
    every vertex; the overload of a layout without position hands the box
    back as it is. *)
Theorem Internal_RecalculateBoundingBox_extends {V} (Position : V → FVector)
    (vb : list V) (b : FBox) :
  IsValid b = true →
  forallb no_NaN (map Position vb) = true →
  (∃ b', RuntimeMeshSectionInternal.RecalculateBoundingBox
           (HasPosition Position) vb b = Some b' ∧
         IsValid b' = true ∧
         (∀ p, inside b p → inside b' p) ∧
         (∀ v, v ∈ vb → inside b' (Position v))) ∧
  RuntimeMeshSectionInternal.RecalculateBoundingBox NoPosition vb b = Some b.
Proof.
  intros Hv Hvb. split; [|reflexivity].
  cbn [RuntimeMeshSectionInternal.RecalculateBoundingBox].
  unfold RuntimeMeshSectionInternal.RecalculateBoundingBox_HasPosition.
  rewrite (for_upto_read vb (λ acc v, FBox_add acc (Position v)) b).
  rewrite fold_left_FBox_add_map.
  destruct (fold_FBox_add_grows (map Position vb) b Hv Hvb) as (Hvf & Hold & Hnew).
  eexists. split; [reflexivity|]. split; [exact Hvf|]. split; [exact Hold|].
  intros v Hvin. apply Hnew. apply list_elem_of_fmap. exists v. auto.
Qed.

Lemma Internal_RecalculateBoundingBox_extends_witness :
  IsValid (MkBox (vec 5 5 5) (vec 6 6 6) true) = true ∧
  forallb no_NaN (map Position (VertexBuffer example_position_section)) = true ∧
  (∃ b', RuntimeMeshSectionInternal.RecalculateBoundingBox
           (HasPosition Position) (VertexBuffer example_position_section)
           (MkBox (vec 5 5 5) (vec 6 6 6) true) = Some b' ∧
         IsValid b' = true ∧
         (∀ p, inside (MkBox (vec 5 5 5) (vec 6 6 6) true) p → inside b' p) ∧
         (∀ v, v ∈ VertexBuffer example_position_section → inside b' (Position v))) ∧
  RuntimeMeshSectionInternal.RecalculateBoundingBox NoPosition
    (VertexBuffer example_position_section)
    (MkBox (vec 5 5 5) (vec 6 6 6) true)
  = Some (MkBox (vec 5 5 5) (vec 6 6 6) true).
Proof.
  split; [reflexivity|]. split; [reflexivity|].
  apply (Internal_RecalculateBoundingBox_extends Position
           (VertexBuffer example_position_section)
           (MkBox (vec 5 5 5) (vec 6 6 6) true)); reflexivity.
Defined.

(** A vertex with a NaN coordinate breaks the containment. *)
Example Internal_RecalculateBoundingBox_NaN :
  RuntimeMeshSectionInternal.RecalculateBoundingBox (HasPosition Position)
    [MkPCVertex (MkVector NaN (FNum 5) (FNum 5)) 0]
    (MkBox (vec 5 5 5) (vec 6 6 6) true)
  = Some (MkBox (MkVector NaN (FNum 5) (FNum 5)) (MkVector NaN (FNum 6) (FNum 6)) true).
Proof. reflexivity. Qed.

(** ** Snapshots, composed *)

Lemma GetSectionCreationData_flag_irrelevant {V} `{RenderBackend}
    (s : FRuntimeMeshSection V) (flag : bool)
    (InScene : FSceneInterface) (InMaterial : option UMaterialInterface) :
  fst (GetSectionCreationData
         (set_base (set_bShouldUseAdjacencyIndexBuffer flag (base s)) s)
         InScene InMaterial)
  = fst (GetSectionCreationData s InScene InMaterial).
Proof.
  unfold GetSectionCreationData. destruct s as [b vb].
  unfold IsDualBufferSection. cbn.
  destruct (bNeedsPositionOnlyBuffer b); reflexivity.
Qed.

(** X9. Asking for the creation data twice in a row, for the same scene and
    material, gives the same payload both times, and the second request
    leaves the section as the first one left it. *)
Theorem GetSectionCreationData_repeat {V} `{RenderBackend}
    (s : FRuntimeMeshSection V)
    (InScene : FSceneInterface) (InMaterial : option UMaterialInterface) :
  let d := fst (GetSectionCreationData s InScene InMaterial) in
  let s1 := snd (GetSectionCreationData s InScene InMaterial) in
  GetSectionCreationData s1 InScene InMaterial = (d, s1).
Proof.
  intros d s1.
  destruct (GetSectionCreationData_eq s InScene InMaterial) as (Hs1 & _).
  fold d s1 in Hs1.
  assert (Hd : fst (GetSectionCreationData s1 InScene InMaterial) = d).
  { rewrite Hs1. apply GetSectionCreationData_flag_irrelevant. }
  destruct (GetSectionCreationData_eq s1 InScene InMaterial) as (Hs2 & _).
  rewrite Hd in Hs2.
  rewrite (surjective_pairing (GetSectionCreationData s1 InScene InMaterial)).
  rewrite Hd, Hs2. f_equal.
  rewrite Hs1. destruct s as [b vb]. reflexivity.
Qed.

(** X10. An update payload with indices, built right after the creation
    payload, carries the same index buffer and the same adjacency marking as
    the creation payload: the flag written by the creation request is the one
    the update request reads. *)
Theorem GetSectionUpdateData_after_creation {V} `{RenderBackend}
    (s : FRuntimeMeshSection V)
    (InScene : FSceneInterface) (InMaterial : option UMaterialInterface)
    (indet incP incV : bool) :
  let d := fst (GetSectionCreationData s InScene InMaterial) in
  let s1 := snd (GetSectionCreationData s InScene InMaterial) in
  let u := GetSectionUpdateData indet s1 incP incV true in
  Update_IndexBuffer u = Create_IndexBuffer d ∧
  Update_bIsAdjacencyIndexBuffer u = Create_bIsAdjacencyIndexBuffer d.
Proof.
  intros d s1 u.
  destruct (GetSectionCreationData_eq s InScene InMaterial)
    as (Hs1 & Hidx & Hadj & _).
  fold d s1 in Hs1, Hidx, Hadj.
  destruct (GetSectionUpdateData_indices indet s1 incP incV) as [Huidx Huadj].
  fold u in Huidx, Huadj.
  rewrite Huidx, Huadj, Hidx, Hadj, Hs1. split; reflexivity.
Qed.

Lemma GetSectionUpdateData_buffers {V} (indet : bool) (s : FRuntimeMeshSection V)
    (incP incV incI : bool) :
  Update_PositionVertexBuffer (GetSectionUpdateData indet s incP incV incI)
  = (if incP then PositionVertexBuffer (base s) else []) ∧
  Update_VertexBuffer (GetSectionUpdateData indet s incP incV incI)
  = (if incV then VertexBuffer s else []) ∧
  Update_IndexBuffer (GetSectionUpdateData indet s incP incV false) = [].
Proof.
  unfold GetSectionUpdateData. destruct incI.
  - destruct (bShouldUseAdjacencyIndexBuffer (base s)
              && bool_decide (0 < Num (TessellationIndexBuffer (base s)))%Z);
      repeat split; reflexivity.
  - repeat split; reflexivity.
Qed.

(** X11. What a position update stores is what the snapshots carry: after
    [UpdateVertexPositionBuffer] with [P], the position-only payload is [P],
    an update payload carries [P] when positions are included and no
    positions when they are not, and an update payload without indices
    carries no indices; the vertex part follows the vertex buffer alike. *)
Theorem snapshots_after_position_update {V} (junk : FVector)
    (s : FRuntimeMeshSection V) (P : list FVector) (bb : option FBox)
    (mv indet incV incI : bool) :
  ∃ r, UpdateVertexPositionBuffer junk (base s) P bb mv = Some r ∧
       let s1 := set_base (updated r) s in
       GetSectionPositionUpdateData s1 = P ∧
       Update_PositionVertexBuffer (GetSectionUpdateData indet s1 true incV incI) = P ∧
       Update_PositionVertexBuffer (GetSectionUpdateData indet s1 false incV incI) = [] ∧
       Update_VertexBuffer (GetSectionUpdateData indet s1 true true incI)
       = VertexBuffer s ∧
       Update_VertexBuffer (GetSectionUpdateData indet s1 true false incI) = [] ∧
       Update_IndexBuffer (GetSectionUpdateData indet s1 true incV false) = [].
Proof.
  eexists. split; [apply UpdateVertexPositionBuffer_eq|].
  cbv zeta. cbn [updated]. set (s1 := set_base _ s).
  assert (HP : PositionVertexBuffer (base s1) = P ∧ VertexBuffer s1 = VertexBuffer s).
  { subst s1.
    destruct (FBox_eqb (LocalBoundingBox (base s)) (proposed_box P bb));
      split; reflexivity. }
  destruct HP as [HP HV].
  destruct (GetSectionUpdateData_buffers indet s1 true incV incI) as (H1 & _ & _).
  destruct (GetSectionUpdateData_buffers indet s1 false incV incI) as (H2 & _ & _).
  destruct (GetSectionUpdateData_buffers indet s1 true true incI) as (_ & H3 & _).
  destruct (GetSectionUpdateData_buffers indet s1 true false incI) as (_ & H4 & _).
  destruct (GetSectionUpdateData_buffers indet s1 true incV incI) as (_ & _ & H5).
  rewrite H1, H2, H3, H4, H5, HV. unfold GetSectionPositionUpdateData.
  rewrite HP. repeat split; reflexivity.
Qed.

(** ** Tessellation indices *)

(** X12. [GenerateTessellationIndices] changes the tessellation index buffer
    and nothing else; the indices it stores are generated from the position,
    vertex and index buffers alone, so the previous tessellation buffer plays
    no part and generating twice is the same as generating once. *)
Theorem GenerateTessellationIndices_frame {V} `{VertexType V}
    (s : FRuntimeMeshSection V) (oldTess : list Z) :
  let s1 := GenerateTessellationIndices s in
  s1 = set_base (set_TessellationIndexBuffer
                   (TessellationIndexBuffer (base s1)) (base s)) s ∧
  GenerateTessellationIndices
    (set_base (set_TessellationIndexBuffer oldTess (base s)) s) = s1 ∧
  GenerateTessellationIndices s1 = s1.
Proof.
  unfold GenerateTessellationIndices, UpdateTessellationIndexBuffer, IsDualBufferSection.
  destruct s as [b vb]. cbn. repeat split; reflexivity.
Qed.

(** ** Writing positions and reading them back *)

(** X13. Positions written through the update of the layout's position
    source are the positions read back: on a layout without position,
    [GetAllVertexPositions] after [UpdateVertexPositionBuffer] with [P] gives
    [P]; on a layout with position, after [UpdateVertexBuffer] with [Vs] it
    gives the positions of [Vs]; the count is the length in both cases, and
    neither the supplied box nor the move flag matters. *)
Theorem GetAllVertexPositions_after_update {V}
    (g1 : list V → list Z → list Z) (g2 : list FVector → list V → list Z → list Z)
    (junkP : FVector) (junkV : V) (s : FRuntimeMeshSection V)
    (P : list FVector) (Vs : list V) (bb : option FBox) (mv : bool) :
  (∃ r, UpdateVertexPositionBuffer junkP (base s) P bb mv = Some r ∧
        GetAllVertexPositions (H := Build_VertexType V NoPosition g1 g2)
          (set_base (updated r) s) []
        = Some (Z.of_nat (length P), P)) ∧
  (∀ Position : V → FVector,
     ∃ r, UpdateVertexBuffer (H := Build_VertexType V (HasPosition Position) g1 g2)
            junkV s Vs bb mv = Some r ∧
          GetAllVertexPositions (H := Build_VertexType V (HasPosition Position) g1 g2)
            (updated r) []
          = Some (Z.of_nat (length Vs), map Position Vs)).
Proof.
  split.
  - eexists. split; [apply UpdateVertexPositionBuffer_eq|].
    cbn [updated]. unfold GetAllVertexPositions.
    cbn [Traits RuntimeMeshSectionInternal.GetAllVertexPositions].
    unfold RuntimeMeshSectionInternal.GetAllVertexPositions_NoPosition, Num.
    destruct (FBox_eqb (LocalBoundingBox (base s)) (proposed_box P bb));
      reflexivity.
  - intros Position. eexists.
    split; [apply UpdateVertexBuffer_HasPosition_eq|].
    cbn [updated]. unfold GetAllVertexPositions.
    cbn [Traits RuntimeMeshSectionInternal.GetAllVertexPositions VertexBuffer].
    rewrite GetAllVertexPositions_HasPosition_eq. reflexivity.
Qed.

(** ** What the stream carries and what it does not *)

(** X14. [Serialize] neither writes nor reads the tessellation index buffer,
    the shadow flag, the adjacency flag, and the two construction flags:
    loading a saved section into any section [t] succeeds and leaves those
    members of [t] as they were, so a freshly constructed section comes back
    casting shadows and without tessellation indices whatever was saved. *)
Theorem Serialize_not_persisted `{FRuntimeMeshVersion}
    (s t : FRuntimeMeshSectionInterface) (ver : Z) :
  valid_EUpdateFrequency (UpdateFrequency s) →
  ∃ Ar Ar' t',
    Serialize s (MkArchive false ver []) = Some (Ar, s) ∧
    Serialize t (MkArchive true ver (Stream Ar)) = Some (Ar', t') ∧
    TessellationIndexBuffer t' = TessellationIndexBuffer t ∧
    bCastsShadow t' = bCastsShadow t ∧
    bShouldUseAdjacencyIndexBuffer t' = bShouldUseAdjacencyIndexBuffer t ∧
    bNeedsPositionOnlyBuffer t' = bNeedsPositionOnlyBuffer t ∧
    bIsInternalSectionType t' = bIsInternalSectionType t ∧
    (∀ dual a f, t = NewInterface dual a f →
       bCastsShadow t' = true ∧ TessellationIndexBuffer t' = []).
Proof.
  intros Hf. eexists. eexists. eexists.
  split; [apply (Serialize_save s ver [] Hf)|].
  cbn [Stream app].
  split.
  { rewrite <- (app_nil_r (section_items s ver)).
    apply (Serialize_load t s ver [] Hf). }
  cbn [TessellationIndexBuffer bCastsShadow bShouldUseAdjacencyIndexBuffer
       bNeedsPositionOnlyBuffer bIsInternalSectionType].
  repeat (split; [reflexivity|]).
  intros dual a f ->. split; reflexivity.
Qed.

Lemma Serialize_not_persisted_witness :
  valid_EUpdateFrequency (UpdateFrequency example_interface) ∧
  ∃ Ar Ar' t',
    Serialize (H := example_version) example_interface (MkArchive false 3 [])
    = Some (Ar, example_interface) ∧
    Serialize (H := example_version) example_single_interface
      (MkArchive true 3 (Stream Ar)) = Some (Ar', t') ∧
    TessellationIndexBuffer t' = TessellationIndexBuffer example_single_interface ∧
    bCastsShadow t' = bCastsShadow example_single_interface ∧
    bShouldUseAdjacencyIndexBuffer t'
    = bShouldUseAdjacencyIndexBuffer example_single_interface ∧
    bNeedsPositionOnlyBuffer t' = bNeedsPositionOnlyBuffer example_single_interface ∧
    bIsInternalSectionType t' = bIsInternalSectionType example_single_interface ∧
    (∀ dual a f, example_single_interface = NewInterface dual a f →
       bCastsShadow t' = true ∧ TessellationIndexBuffer t' = []).
Proof.
  split.
  - unfold valid_EUpdateFrequency. simpl. lia.
  - apply (Serialize_not_persisted (H := example_version) example_interface
             example_single_interface 3).
    unfold valid_EUpdateFrequency. simpl. lia.
Defined.

(** X15. Sections chain on one archive: two sections pushed through
    [operator<<] one after the other, then two sections pulled in the same
    order from the resulting stream, each receive the index buffer, bounds,
    flags and frequency of the section saved in their place, and the stream is
    used up. *)
Theorem Serialize_chain `{FRuntimeMeshVersion}
    (s1 s2 t1 t2 : FRuntimeMeshSectionInterface) (ver : Z) :
  valid_EUpdateFrequency (UpdateFrequency s1) →
  valid_EUpdateFrequency (UpdateFrequency s2) →
  ∃ A1 A2 B1 B2 t1' t2',
    Ar_shift_section (MkArchive false ver []) s1 = Some (A1, s1) ∧
    Ar_shift_section A1 s2 = Some (A2, s2) ∧
    Ar_shift_section (MkArchive true ver (Stream A2)) t1 = Some (B1, t1') ∧
    Ar_shift_section B1 t2 = Some (B2, t2') ∧
    Stream B2 = [] ∧
    (IndexBuffer t1', LocalBoundingBox t1', CollisionEnabled t1', bIsVisible t1',
     UpdateFrequency t1')
    = (IndexBuffer s1, LocalBoundingBox s1, CollisionEnabled s1, bIsVisible s1,
       UpdateFrequency s1) ∧
    (IndexBuffer t2', LocalBoundingBox t2', CollisionEnabled t2', bIsVisible t2',
     UpdateFrequency t2')
    = (IndexBuffer s2, LocalBoundingBox s2, CollisionEnabled s2, bIsVisible s2,
       UpdateFrequency s2).
Proof.
  intros Hf1 Hf2. unfold Ar_shift_section.
  eexists. eexists. eexists. eexists. eexists. eexists.
  split; [apply (Serialize_save s1 ver [] Hf1)|].
  split; [apply (Serialize_save s2 ver _ Hf2)|].
  cbn [Stream app].
  split; [apply (Serialize_load t1 s1 ver _ Hf1)|].
  split.
  { rewrite <- (app_nil_r (section_items s2 ver)).
    apply (Serialize_load t2 s2 ver [] Hf2). }
  repeat split; reflexivity.
Qed.

Lemma Serialize_chain_witness :
  valid_EUpdateFrequency (UpdateFrequency example_interface) ∧
  valid_EUpdateFrequency (UpdateFrequency example_single_interface) ∧
  ∃ A1 A2 B1 B2 t1' t2',
    Ar_shift_section (H := example_version) (MkArchive false 3 []) example_interface
    = Some (A1, example_interface) ∧
    Ar_shift_section (H := example_version) A1 example_single_interface
    = Some (A2, example_single_interface) ∧
    Ar_shift_section (H := example_version) (MkArchive true 3 (Stream A2))
      (NewInterface true false 0%Z) = Some (B1, t1') ∧
    Ar_shift_section (H := example_version) B1 (NewInterface false false 0%Z)
    = Some (B2, t2') ∧
    Stream B2 = [] ∧
    (IndexBuffer t1', LocalBoundingBox t1', CollisionEnabled t1', bIsVisible t1',
     UpdateFrequency t1')
    = (IndexBuffer example_interface, LocalBoundingBox example_interface,
       CollisionEnabled example_interface, bIsVisible example_interface,
       UpdateFrequency example_interface) ∧
    (IndexBuffer t2', LocalBoundingBox t2', CollisionEnabled t2', bIsVisible t2',
     UpdateFrequency t2')
    = (IndexBuffer example_single_interface, LocalBoundingBox example_single_interface,
       CollisionEnabled example_single_interface, bIsVisible example_single_interface,
       UpdateFrequency example_single_interface).
Proof.
  split; [unfold valid_EUpdateFrequency; simpl; lia|].
  split; [unfold valid_EUpdateFrequency; simpl; lia|].
  apply (Serialize_chain (H := example_version) example_interface
           example_single_interface (NewInterface true false 0%Z)
           (NewInterface false false 0%Z) 3);
    unfold valid_EUpdateFrequency; simpl; lia.
Defined.

(** X16. Saving what was loaded writes the stream that was read: a section
    loaded from the stream of [s] pushes, at the same version, exactly the
    values [s] pushed, whatever section it was loaded into. *)
Theorem Serialize_resave `{FRuntimeMeshVersion}
    (s t : FRuntimeMeshSectionInterface) (ver : Z) :
  valid_EUpdateFrequency (UpdateFrequency s) →
  ∃ Ar Ar' t' Ar'',
    Serialize s (MkArchive false ver []) = Some (Ar, s) ∧
    Serialize t (MkArchive true ver (Stream Ar)) = Some (Ar', t') ∧
    Serialize t' (MkArchive false ver []) = Some (Ar'', t') ∧
    Stream Ar'' = Stream Ar.
Proof.
  intros Hf. eexists. eexists. eexists. eexists.
  split; [apply (Serialize_save s ver [] Hf)|].
  cbn [Stream app].
  split.
  { rewrite <- (app_nil_r (section_items s ver)).
    apply (Serialize_load t s ver [] Hf). }
  split; [apply Serialize_save; exact Hf|].
  cbn [Stream app]. unfold section_items.
  cbn [PositionVertexBuffer IndexBuffer LocalBoundingBox CollisionEnabled
       bIsVisible UpdateFrequency].
  destruct (DualVertexBuffer <=? ver)%Z; reflexivity.
Qed.

Lemma Serialize_resave_witness :
  valid_EUpdateFrequency (UpdateFrequency example_interface) ∧
  ∃ Ar Ar' t' Ar'',
    Serialize (H := example_version) example_interface (MkArchive false 0 [])
    = Some (Ar, example_interface) ∧
    Serialize (H := example_version) example_single_interface
      (MkArchive true 0 (Stream Ar)) = Some (Ar', t') ∧
    Serialize (H := example_version) t' (MkArchive false 0 []) = Some (Ar'', t') ∧
    Stream Ar'' = Stream Ar.
Proof.
  split.
  - unfold valid_EUpdateFrequency. simpl. lia.
  - apply (Serialize_resave (H := example_version) example_interface
             example_single_interface 0).
    unfold valid_EUpdateFrequency. simpl. lia.
Defined.

(** ** A freshly constructed section *)

(** X17. The constructor leaves the adjacency flag unset, and that is harmless
    while no tessellation indices exist: for a fresh section that has only
    received an index buffer, the update payload with indices carries that
    index buffer and is marked as plain, whatever the unset flag holds; the
    fresh section has the empty box as bounds and yields no positions. *)
Theorem NewSection_snapshots {V} `{VertexType V}
    (dual indetAdjacency : bool) (indetFrequency : EUpdateFrequency)
    (T : list Z) (mv indet incP incV : bool) (A : list FVector) :
  let s0 : FRuntimeMeshSection V := NewSection dual indetAdjacency indetFrequency in
  let s1 := set_base (fst (UpdateIndexBuffer (base s0) T mv)) s0 in
  let u := GetSectionUpdateData indet s1 incP incV true in
  Update_IndexBuffer u = T ∧
  Update_bIsAdjacencyIndexBuffer u = false ∧
  LocalBoundingBox (base s0) = FBox_Init ∧
  RecalculateBoundingBox s0 = Some s0 ∧
  GetAllVertexPositions s0 A = Some (0%Z, A).
Proof.
  intros s0 s1 u.
  destruct (GetSectionUpdateData_indices indet s1 incP incV) as [Hidx Hadj].
  fold u in Hidx, Hadj. rewrite Hidx, Hadj.
  assert (Htess : TessellationIndexBuffer (base s1) = [])
    by (subst s1 s0; unfold UpdateIndexBuffer; destruct mv; reflexivity).
  assert (HT : IndexBuffer (base s1) = T)
    by (subst s1 s0; unfold UpdateIndexBuffer; destruct mv; reflexivity).
  rewrite Htess, HT, andb_false_r.
  split; [reflexivity|]. split; [reflexivity|]. split; [reflexivity|]. split.
  - rewrite RecalculateBoundingBox_eq. subst s0. unfold bounds_source.
    destruct dual; [reflexivity|].
    destruct H as [[Position|] g1 g2]; reflexivity.
  - subst s0. unfold GetAllVertexPositions.
    destruct H as [[Position|] g1 g2];
      cbn [Traits RuntimeMeshSectionInternal.GetAllVertexPositions].
    + reflexivity.
    + unfold RuntimeMeshSectionInternal.GetAllVertexPositions_NoPosition.
      cbn [NewSection NewInterface base PositionVertexBuffer].
      rewrite app_nil_r. reflexivity.
Qed.

(** ** The bounds invariant *)

(** X18. On a single buffer section of a layout with position, for embedded
    positions without NaN coordinate, [RecalculateBoundingBox] after a vertex
    update leaves the tight box of the embedded positions whatever box the
    caller had supplied; when none was supplied the rescan agrees, corner for
    corner, with the bounds the update had left. *)
Theorem RecalculateBoundingBox_after_vertex_update {V} (Position : V → FVector)
    (g1 : list V → list Z → list Z) (g2 : list FVector → list V → list Z → list Z)
    (junk : V) (s : FRuntimeMeshSection V) (Vs : list V)
    (bb : option FBox) (mv : bool) :
  IsDualBufferSection (base s) = false →
  forallb no_NaN (map Position Vs) = true →
  ∃ r s', UpdateVertexBuffer (H := Build_VertexType V (HasPosition Position) g1 g2)
            junk s Vs bb mv = Some r ∧
          RecalculateBoundingBox (H := Build_VertexType V (HasPosition Position) g1 g2)
            (updated r) = Some s' ∧
          is_tight_box (map Position Vs) (LocalBoundingBox (base s')) ∧
          match bb with
          | None =>
              FBox_eqb (LocalBoundingBox (base (updated r)))
                (LocalBoundingBox (base s')) = true
          | Some _ => True
          end.
Proof.
  intros Hs HP. eexists. eexists.
  split; [apply UpdateVertexBuffer_HasPosition_eq|].
  split; [apply RecalculateBoundingBox_eq|].
  cbv zeta. cbn [updated base set_base LocalBoundingBox set_LocalBoundingBox].
  unfold IsDualBufferSection in Hs.
  assert (Hsrc : ∀ b', bNeedsPositionOnlyBuffer b' = false →
            bounds_source (H := Build_VertexType V (HasPosition Position) g1 g2)
              (MkSection b' Vs) = map Position Vs).
  { intros b' Hb'. unfold bounds_source, IsDualBufferSection.
    cbn [base VertexBuffer Traits]. rewrite Hb'. reflexivity. }
  destruct (FBox_eqb (LocalBoundingBox (base s))
              (proposed_box (map Position Vs) bb)) eqn:E;
    rewrite Hsrc by exact Hs.
  - split; [apply scan_box_tight, HP|]. destruct bb; [exact I|]. exact E.
  - split; [apply scan_box_tight, HP|]. destruct bb; [exact I|].
    cbn [proposed_box]. apply FBox_eqb_refl, scan_box_no_NaN, HP.
Qed.

Lemma RecalculateBoundingBox_after_vertex_update_witness :
  IsDualBufferSection (base example_position_section) = false ∧
  forallb no_NaN (map Position [MkPCVertex (vec 3 (-2) 1) 7]) = true ∧
  ∃ r s', UpdateVertexBuffer (H := example_VertexType_position)
            (MkPCVertex ZeroVector 0) example_position_section
            [MkPCVertex (vec 3 (-2) 1) 7] None true = Some r ∧
          RecalculateBoundingBox (H := example_VertexType_position)
            (updated r) = Some s' ∧
          is_tight_box (map Position [MkPCVertex (vec 3 (-2) 1) 7])
            (LocalBoundingBox (base s')) ∧
          FBox_eqb (LocalBoundingBox (base (updated r)))
            (LocalBoundingBox (base s')) = true.
Proof.
  split; [reflexivity|]. split; [reflexivity|].
  apply (RecalculateBoundingBox_after_vertex_update Position
           (λ _ idx, idx ++ idx) (λ _ _ idx, idx ++ idx)
           (MkPCVertex ZeroVector 0) example_position_section
           [MkPCVertex (vec 3 (-2) 1) 7] None true); reflexivity.
Defined.

Lemma bounds_tight_same_source {V} `{VertexType V} (s s' : FRuntimeMeshSection V) :
  bNeedsPositionOnlyBuffer (base s') = bNeedsPositionOnlyBuffer (base s) →
  PositionVertexBuffer (base s') = PositionVertexBuffer (base s) →
  VertexBuffer s' = VertexBuffer s →
  LocalBoundingBox (base s') = LocalBoundingBox (base s) →
  bounds_tight s → bounds_tight s'.
Proof.
  unfold bounds_tight, bounds_source, IsDualBufferSection.
  intros -> -> -> ->. auto.
Qed.

(** X19. The operations that do not concern positions keep the bounds
    invariant: if the bounds of a section have the extents of the tight box
    of its position source, they still have after an index update, a
    tessellation index update, [GenerateTessellationIndices] and
    [GetSectionCreationData]. *)
Theorem bounds_tight_preserved {V} `{VertexType V} `{RenderBackend}
    (s : FRuntimeMeshSection V) (T : list Z) (mv : bool)
    (InScene : FSceneInterface) (InMaterial : option UMaterialInterface) :
  bounds_tight s →
  bounds_tight (set_base (fst (UpdateIndexBuffer (base s) T mv)) s) ∧
  bounds_tight (set_base (fst (UpdateTessellationIndexBuffer (base s) T mv)) s) ∧
  bounds_tight (GenerateTessellationIndices s) ∧
  bounds_tight (snd (GetSectionCreationData s InScene InMaterial)).
Proof.
  intros Hb. repeat split.
  - apply (bounds_tight_same_source s); auto;
      unfold UpdateIndexBuffer; destruct mv; reflexivity.
  - apply (bounds_tight_same_source s); auto;
      unfold UpdateTessellationIndexBuffer; destruct mv; reflexivity.
  - apply (bounds_tight_same_source s); auto; reflexivity.
  - destruct (GetSectionCreationData_eq s InScene InMaterial) as (Hs' & _).
    rewrite Hs'. apply (bounds_tight_same_source s); auto; reflexivity.
Qed.

Lemma bounds_tight_preserved_witness :
  bounds_tight (H := example_VertexType_color) example_color_section ∧
  bounds_tight (H := example_VertexType_color)
    (set_base (fst (UpdateIndexBuffer (base example_color_section) [0; 2; 1]%Z true))
       example_color_section) ∧
  bounds_tight (H := example_VertexType_color)
    (set_base (fst (UpdateTessellationIndexBuffer (base example_color_section)
                      [0; 2; 1]%Z true))
       example_color_section) ∧
  bounds_tight (H := example_VertexType_color)
    (GenerateTessellationIndices (H := example_VertexType_color)
       example_color_section) ∧
  bounds_tight (H := example_VertexType_color)
    (snd (GetSectionCreationData (H := example_backend true)
            example_color_section tt None)).
Proof.
  assert (Hb : bounds_tight (H := example_VertexType_color) example_color_section).
  { unfold bounds_tight.
    apply (is_tight_box_corners _ (scan_box unit_square));
      [reflexivity | reflexivity | apply scan_box_tight; reflexivity]. }
  split; [exact Hb|].
  apply (bounds_tight_preserved (H := example_VertexType_color)
           (H0 := example_backend true) example_color_section
           [0; 2; 1]%Z true tt None Hb).
Defined.
